(** * IP-Country: the record ingestion and normalization engine

    A shallow embedding of [build.py] (IP blocks) and [build-asn.py]
    (AS numbers), and the properties of their parsing, prefix derivation,
    sorting and partitioning.

    Text is [string]; a character is read as a Unicode code point below 256.
    Python exceptions are the [Raise] results of [Py.result]. *)

From Stdlib Require Import String Ascii List ZArith Lia Bool.
From Stdlib Require Import Sorted Permutation DecimalString DecimalPos.
Import ListNotations.

Local Open Scope list_scope.
Local Open Scope string_scope.

(** ** The Python built-ins the two scripts call *)

Module Py.

Inductive exn : Set :=
| ValueError
| KeyError
| FileNotFoundError.

Inductive result (A : Type) : Type :=
| Ok (a : A)
| Raise (e : exn).

Arguments Ok {A} a.
Arguments Raise {A} e.

Definition bind {A B : Type} (m : result A) (k : A -> result B) : result B :=
  match m with
  | Ok a => k a
  | Raise e => Raise e
  end.

Definition code (c : ascii) : nat := nat_of_ascii c.

Definition between (lo hi n : nat) : bool := (lo <=? n)%nat && (n <=? hi)%nat.

(** [str.isspace] on one character: the code points below 256 that
    Unicode classes as white space. *)
Definition isspace (c : ascii) : bool :=
  between 9 13 (code c) || between 28 32 (code c)
  || (code c =? 133)%nat || (code c =? 160)%nat.

(** The white space [int()] skips around a literal: the ASCII blanks and
    the two Latin-1 spaces, but not the separators 28..31. *)
Definition int_space (c : ascii) : bool :=
  between 9 13 (code c) || (code c =? 32)%nat
  || (code c =? 133)%nat || (code c =? 160)%nat.

Definition is_decimal (c : ascii) : bool := between 48 57 (code c).

(** [str.isdigit] on one character: the decimal digits and the
    superscripts two, three and one. *)
Definition isdigit_char (c : ascii) : bool :=
  is_decimal c || (code c =? 178)%nat || (code c =? 179)%nat || (code c =? 185)%nat.

Fixpoint all_chars (p : ascii -> bool) (s : string) : bool :=
  match s with
  | EmptyString => true
  | String c r => p c && all_chars p r
  end.

(** [s.isdigit()]: every character is a digit and there is at least one. *)
Definition isdigit (s : string) : bool :=
  match s with
  | EmptyString => false
  | _ => all_chars isdigit_char s
  end.

Fixpoint lstrip_by (p : ascii -> bool) (s : string) : string :=
  match s with
  | EmptyString => EmptyString
  | String c r => if p c then lstrip_by p r else s
  end.

Fixpoint rstrip_by (p : ascii -> bool) (s : string) : string :=
  match s with
  | EmptyString => EmptyString
  | String c r =>
      match rstrip_by p r with
      | EmptyString => if p c then EmptyString else String c EmptyString
      | r' => String c r'
      end
  end.

(** [s.strip()] *)
Definition strip (s : string) : string := rstrip_by isspace (lstrip_by isspace s).

(** [s.split(sep)] for a one-character separator. *)
Fixpoint split (sep : ascii) (s : string) : list string :=
  match s with
  | EmptyString => [EmptyString]
  | String c r =>
      if Ascii.eqb c sep then EmptyString :: split sep r
      else match split sep r with
           | [] => [String c EmptyString]
           | p :: ps => String c p :: ps
           end
  end.

(** [sub in s] *)
Fixpoint contains (sub s : string) : bool :=
  String.prefix sub s
  || match s with
     | EmptyString => false
     | String _ r => contains sub r
     end.

(** [s.startswith(p)] *)
Definition startswith (s p : string) : bool := String.prefix p s.

Definition digit_value (c : ascii) : Z := Z.of_nat (code c) - 48.

(** The digits of an integer literal: decimal digits, with single
    underscores allowed between two digits. *)
Fixpoint int_digits (acc : Z) (after_digit : bool) (s : string) : option Z :=
  match s with
  | EmptyString => if after_digit then Some acc else None
  | String c r =>
      if is_decimal c then int_digits (10 * acc + digit_value c) true r
      else if Ascii.eqb c "_" && after_digit then
        match r with
        | String d _ => if is_decimal d then int_digits acc false r else None
        | EmptyString => None
        end
      else None
  end.

(** The number of decimal digits of a literal; the sign, the underscores
    and the white space around it are not counted, leading zeros are. *)
Fixpoint digit_count (s : string) : Z :=
  match s with
  | EmptyString => 0
  | String c r => ((if is_decimal c then 1 else 0) + digit_count r)%Z
  end.

(** [sys.get_int_max_str_digits()], as the interpreter starts. *)
Definition max_str_digits : Z := 4300.

(** The value of an integer literal in base ten, after the white space
    around it is taken off; [None] when it is no literal. *)
Definition int_literal (t : string) : option Z :=
  match t with
  | String "+" d => int_digits 0 false d
  | String "-" d => option_map Z.opp (int_digits 0 false d)
  | _ => int_digits 0 false t
  end.

(** [int(s)] in base ten: ValueError for a text that is no literal, and
    for a literal of more than [max_str_digits] digits. *)
Definition int (s : string) : result Z :=
  let t := rstrip_by int_space (lstrip_by int_space s) in
  match int_literal t with
  | Some n => if (digit_count t <=? max_str_digits)%Z then Ok n else Raise ValueError
  | None => Raise ValueError
  end.

(** [str(n)] for an integer (of at most [max_str_digits] digits: it is
    applied to prefix lengths only). *)
Definition str (n : Z) : string := NilZero.string_of_int (Z.to_int n).

(** [int(32 - math.log2(n))]: [math.log2] raises on zero; otherwise the
    difference is truncated towards zero.  The logarithm is read as the
    real one.  The double the interpreter computes is exact on powers of
    two and gives this same integer for every [n] below [2^48]; above,
    its rounding can move the result by one next to a power of two. *)
Definition int_32_minus_log2 (n : Z) : result Z :=
  if (n <=? 0)%Z then Raise ValueError
  else if (n <=? 2 ^ 32)%Z then Ok (32 - Z.log2_up n)%Z
  else Ok (32 - Z.log2 n)%Z.

(** Tuple comparison [(a1, b1, c1) < (a2, b2, c2)] as [sorted] uses it. *)
Definition tuple3_ltb (k1 k2 : string * string * Z) : bool :=
  let '(a1, b1, c1) := k1 in
  let '(a2, b2, c2) := k2 in
  if String.eqb a1 a2 then
    if String.eqb b1 b2 then (c1 <? c2)%Z else String.ltb b1 b2
  else String.ltb a1 a2.

Section Sorted.
Context {A : Type} (ltb : A -> A -> bool).

(** [sorted] is stable: an element goes before the first one that is
    not smaller than it, so equal keys keep their input order. *)
Fixpoint insert (x : A) (l : list A) : list A :=
  match l with
  | [] => [x]
  | y :: l' => if ltb y x then y :: insert x l' else x :: l
  end.

Definition sorted (l : list A) : list A := fold_right insert [] l.
End Sorted.

(** [sorted(l, key=f)] when computing a key can raise: the keys are all
    computed first, so one failing key aborts the whole sort. *)
Fixpoint keys {A K : Type} (f : A -> result K) (l : list A) : result (list (K * A)) :=
  match l with
  | [] => Ok []
  | x :: r =>
      bind (f x) (fun k => bind (keys f r) (fun kr => Ok ((k, x) :: kr)))
  end.

Definition sorted_by {A K : Type} (ltb : K -> K -> bool) (f : A -> result K)
    (l : list A) : result (list A) :=
  bind (keys f l) (fun kl =>
    Ok (map snd (sorted (fun p q => ltb (fst p) (fst q)) kl))).

(** A [dict] in insertion order. *)
Definition dict (V : Type) : Type := list (string * V).

(** [d[k] = f(d[k])] on a [defaultdict] whose missing entries start at
    [dflt]: a new key goes to the end. *)
Fixpoint update {V : Type} (dflt : V) (f : V -> V) (k : string) (d : dict V) : dict V :=
  match d with
  | [] => [(k, f dflt)]
  | (k', v) :: r =>
      if String.eqb k' k then (k', f v) :: r else (k', v) :: update dflt f k r
  end.

(** Text-mode line iteration of a file: line ends are "\n", "\r" and
    "\r\n", each handed over as "\n" at the end of its line. *)
Definition LF : ascii := ascii_of_nat 10.
Definition CR : ascii := ascii_of_nat 13.

Fixpoint universal_newlines (s : string) : string :=
  match s with
  | EmptyString => EmptyString
  | String c r =>
      if Ascii.eqb c CR then
        String LF (match r with
                   | String d r' => if Ascii.eqb d LF then universal_newlines r'
                                    else universal_newlines r
                   | EmptyString => EmptyString
                   end)
      else String c (universal_newlines r)
  end.

Fixpoint lines_of (s : string) : list string :=
  match s with
  | EmptyString => []
  | String c r =>
      if Ascii.eqb c LF then String c EmptyString :: lines_of r
      else match lines_of r with
           | [] => [String c EmptyString]
           | l :: ls => String c l :: ls
           end
  end.

Definition readlines (text : string) : list string :=
  lines_of (universal_newlines text).

(** [s.upper()] on the ASCII letters (it is applied to the two family
    keys only). *)
Definition upper_char (c : ascii) : ascii :=
  if between 97 122 (code c) then ascii_of_nat (code c - 32) else c.

Fixpoint upper (s : string) : string :=
  match s with
  | EmptyString => EmptyString
  | String c r => String (upper_char c) (upper r)
  end.

(** [int(ipaddress.IPv4Address(s))] of the Python library (as of Python
    3.9.5): four octets separated by dots, each of one to three ASCII
    decimal digits, without a leading zero unless it is "0", and at most
    255; [None] when the constructor raises. *)
Definition parse_octet (s : string) : option Z :=
  if all_chars is_decimal s && (1 <=? String.length s)%nat && (String.length s <=? 3)%nat
     && (String.eqb s "0" || negb (String.prefix "0" s))
  then match int_digits 0 false s with
       | Some n => if (n <=? 255)%Z then Some n else None
       | None => None
       end
  else None.

Definition ipv4_address_int (s : string) : option Z :=
  match map parse_octet (split "." s) with
  | [Some a; Some b; Some c; Some d] => Some (((a * 256 + b) * 256 + c) * 256 + d)%Z
  | _ => None
  end.

(** [sep.join(l)] *)
Fixpoint join (sep : string) (l : list string) : string :=
  match l with
  | [] => EmptyString
  | x :: r =>
      match r with
      | [] => x
      | _ => x ++ sep ++ join sep r
      end
  end.

(** Code that writes files and can raise: the files written so far, in
    order, and the value or the exception.  [write] stands for
    [open(path, 'w')] and what is written through it; opening is taken to
    succeed, which is so when the path names a file in a directory that
    exists. *)
Definition io (W A : Type) : Type := (list W * result A)%type.

Definition ret {W A : Type} (a : A) : io W A := ([], Ok a).

Definition write {W : Type} (w : W) : io W unit := ([w], Ok tt).

Definition lift {W A : Type} (r : result A) : io W A := ([], r).

Definition io_bind {W A B : Type} (m : io W A) (k : A -> io W B) : io W B :=
  match m with
  | (w, Ok a) => let '(w', r) := k a in ((w ++ w')%list, r)
  | (w, Raise e) => (w, Raise e)
  end.

(** [for x in l: body(x)] *)
Fixpoint for_each {W A : Type} (l : list A) (body : A -> io W unit) : io W unit :=
  match l with
  | [] => ret tt
  | x :: r => io_bind (body x) (fun _ => for_each r body)
  end.

End Py.

Import Py.

Notation "x <- m ;; k" := (Py.bind m (fun x => k))
  (at level 61, m at next level, right associativity).
Notation "x <~ m ;; k" := (Py.io_bind m (fun x => k))
  (at level 61, m at next level, right associativity).
Notation "m ;;; k" := (Py.io_bind m (fun _ => k))
  (at level 61, right associativity).

Definition nl : string := String Py.LF EmptyString.


(** ** build.py: IP blocks *)

Module Build.

(** The registry files, by name, in the order of the dictionary. *)
Definition REGIONS_DELEGATED : list string :=
  [ "delegated-apnic-latest";
    "delegated-arin-extended-latest";
    "delegated-ripencc-latest";
    "delegated-afrinic-latest";
    "delegated-lacnic-latest" ].

Record IPPackage : Type := mkIPPackage {
  country : string;
  ip : string;
  prefix_length : string;
  version : string
}.

(** What one turn of the loop of [process_region_data] does with a
    line: nothing, one record appended, or an exception. *)
Definition process_line (line : string) : result (option IPPackage) :=
  if contains "allocated" line || contains "assigned" line then
    let parts := split "|" (strip line) in
    if (5 <=? length parts)%nat then
      let country := nth 1 parts "" in
      let ip_type := nth 2 parts "" in
      let ip_address := nth 3 parts "" in
      let value := nth 4 parts "" in
      if String.eqb ip_type "ipv4" && isdigit value then
        n <- int value ;;
        p <- int_32_minus_log2 n ;;
        Ok (Some (mkIPPackage country ip_address (str p) ip_type))
      else if String.eqb ip_type "ipv6" && isdigit value then
        Ok (Some (mkIPPackage country ip_address value ip_type))
      else Ok None
    else Ok None
  else Ok None.

Fixpoint process_lines (lines : list string) (ip_data : list IPPackage)
    : result (list IPPackage) :=
  match lines with
  | [] => Ok ip_data
  | line :: rest =>
      r <- process_line line ;;
      match r with
      | Some pkg => process_lines rest (ip_data ++ [pkg])%list
      | None => process_lines rest ip_data
      end
  end.

(** [fs] is the directory of downloaded sources: the text of a file, or
    [None] when the file is not there. *)
Definition process_region_data (fs : string -> option string) (region_name : string)
    : result (list IPPackage) :=
  match fs ("IANASources/" ++ region_name ++ ".txt") with
  | None => Raise FileNotFoundError
  | Some text => process_lines (readlines text) []
  end.

Section Sorting.
(** [int(ipaddress.IPv4Address(s))] and [int(ipaddress.IPv6Address(s))]
    of the Python library: the integer, or [None] when the constructor
    raises. *)
Variables IPv4Address IPv6Address : string -> option Z.

Definition ip_sort_key (package : IPPackage) : string * string * Z :=
  let ip_int :=
    if String.eqb (version package) "ipv4" then
      match IPv4Address (ip package) with Some n => n | None => 0%Z end
    else
      match IPv6Address (ip package) with Some n => n | None => 0%Z end in
  (country package, version package, ip_int).

Definition sort_ip_data (ip_data : list IPPackage) : list IPPackage :=
  sorted (fun a b => tuple3_ltb (ip_sort_key a) (ip_sort_key b)) ip_data.
End Sorting.

(** A written file: its path and the records (or country codes) its
    rows are made from, in order. *)
Inductive content : Type :=
| Countries (l : list string)
| Rows (l : list IPPackage).

Definition artifact : Type := (string * content)%type.

(** [sorted(list(set(...)))]: the distinct codes, in increasing order. *)
Definition countries_of (sorted_data : list IPPackage) : list string :=
  sorted String.ltb (nodup string_dec (map country sorted_data)).

Definition export_countries_list (sorted_data : list IPPackage) : io artifact unit :=
  let countries := countries_of sorted_data in
  write ("CSV/countries.csv", Countries countries) ;;;
  write ("JSON/countries.json", Countries countries) ;;;
  write ("TXT/countries.txt", Countries countries).

Definition export_global_data (sorted_data : list IPPackage) : io artifact unit :=
  write ("CSV/global.csv", Rows sorted_data) ;;;
  write ("JSON/global.json", Rows sorted_data) ;;;
  write ("JSON/global_compressed.json", Rows sorted_data).

Definition version_view (sorted_data : list IPPackage) (v : string) : list IPPackage :=
  filter (fun pkg => String.eqb (version pkg) v) sorted_data.

Definition export_version_specific_data (sorted_data : list IPPackage) (v : string)
    : io artifact unit :=
  let version_data := version_view sorted_data v in
  write ("CSV/global_" ++ v ++ ".csv", Rows version_data) ;;;
  write ("JSON/global_" ++ v ++ ".json", Rows version_data) ;;;
  write ("JSON/global_" ++ v ++ "_compressed.json", Rows version_data).

(** The value of [country_data[c]]: the lists under the keys 'ipv4' and
    'ipv6'. *)
Definition versions : Type := (list IPPackage * list IPPackage)%type.

Definition group_step (cd : result (dict versions)) (pkg : IPPackage)
    : result (dict versions) :=
  d <- cd ;;
  if String.eqb (version pkg) "ipv4" then
    Ok (update ([], []) (fun vs => ((fst vs ++ [pkg])%list, snd vs)) (country pkg) d)
  else if String.eqb (version pkg) "ipv6" then
    Ok (update ([], []) (fun vs => (fst vs, (snd vs ++ [pkg])%list)) (country pkg) d)
  else Raise KeyError.

Definition group_by_country (sorted_data : list IPPackage) : result (dict versions) :=
  fold_left group_step sorted_data (Ok []).

Definition write_group (c v : string) (packages : list IPPackage) : io artifact unit :=
  match packages with
  | [] => ret tt
  | _ =>
      write ("CSV/" ++ upper v ++ "/" ++ c ++ ".csv", Rows packages) ;;;
      write ("JSON/" ++ upper v ++ "/" ++ c ++ ".json", Rows packages) ;;;
      write ("TXT/" ++ upper v ++ "/" ++ c ++ ".txt", Rows packages)
  end.

Definition export_country_data (sorted_data : list IPPackage) : io artifact unit :=
  country_data <~ lift (group_by_country sorted_data) ;;
  for_each country_data (fun '(c, vs) =>
    write_group c "ipv4" (fst vs) ;;; write_group c "ipv6" (snd vs)).

Section Main.
Variables IPv4Address IPv6Address : string -> option Z.

(** The processing loop of [main]: a source whose processing raises
    contributes nothing. *)
Definition collect (fs : string -> option string) : list IPPackage :=
  flat_map (fun region =>
              match process_region_data fs region with
              | Ok region_data => region_data
              | Raise _ => []
              end) REGIONS_DELEGATED.

(** [main] after the download step, whose outcome is [fs]; the
    progress messages are left out. *)
Definition main (fs : string -> option string) : io artifact unit :=
  let all_ip_data := collect fs in
  let sorted_data := sort_ip_data IPv4Address IPv6Address all_ip_data in
  export_countries_list sorted_data ;;;
  export_global_data sorted_data ;;;
  export_version_specific_data sorted_data "ipv4" ;;;
  export_version_specific_data sorted_data "ipv6" ;;;
  export_country_data sorted_data.
End Main.

(** The rest of build.py: the rows of the files, the directories and the
    closing statistics of [main]. *)

Definition to_dict (pkg : IPPackage) : list (string * string) :=
  [("Country", country pkg); ("IP", ip pkg);
   ("PrefixLength", prefix_length pkg); ("Version", version pkg)].

(** The columns given to [csv.DictWriter]. *)
Definition fieldnames : list string := ["Country"; "IP"; "PrefixLength"; "Version"].

(** [[f'{pkg.ip}/{pkg.prefix_length}' for pkg in packages]] *)
Definition cidr_list (packages : list IPPackage) : list string :=
  map (fun pkg => ip pkg ++ "/" ++ prefix_length pkg) packages.

(** The text written to a TXT file of a country. *)
Definition txt_text (packages : list IPPackage) : string :=
  join (String LF EmptyString) (cidr_list packages).

Definition create_directories : list string :=
  ["IANASources";
   "CSV"; "CSV/IPV4"; "CSV/IPV6";
   "JSON"; "JSON/IPV4"; "JSON/IPV6";
   "TXT"; "TXT/IPV4"; "TXT/IPV6"].

(** [sum(1 for pkg in sorted_data if pkg.version == v)] *)
Definition version_count (sorted_data : list IPPackage) (v : string) : nat :=
  list_sum (map (fun pkg => if String.eqb (version pkg) v then 1 else 0)%nat sorted_data).

(** [len(set(pkg.country for pkg in sorted_data))] *)
Definition countries_count (sorted_data : list IPPackage) : nat :=
  length (nodup string_dec (map country sorted_data)).

End Build.

(** ** build-asn.py: AS numbers *)

Module BuildAsn.

Record ASNEntry : Type := mkASNEntry {
  registry : string;
  country : string;
  asn : string;
  value : string;
  date : string;
  status : string
}.

(** What one turn of the loop of [process_asn_data] appends. *)
Definition process_line (line : string) : option ASNEntry :=
  if negb (String.eqb line "") && negb (startswith line "#") then
    let parts := split "|" (strip line) in
    if (7 <=? length parts)%nat && String.eqb (nth 2 parts "") "asn" then
      let registry := nth 0 parts "" in
      let country := nth 1 parts "" in
      let asn_type := nth 2 parts "" in
      let asn_number := nth 3 parts "" in
      let value := nth 4 parts "" in
      let date := nth 5 parts "" in
      let status := nth 6 parts "" in
      if String.eqb asn_type "asn"
         && (String.eqb status "allocated" || String.eqb status "assigned")
      then Some (mkASNEntry registry country asn_number value date status)
      else None
    else None
  else None.

Definition process_asn_data (registry_name data : string) : list ASNEntry :=
  flat_map (fun line => match process_line line with
                        | Some e => [e]
                        | None => []
                        end)
           (split Py.LF data).

(** [response] is the text the registry served, or [None] when the
    request failed: the exception is caught and the source is empty. *)
Definition download_and_process_asn (registry_name : string) (response : option string)
    : list ASNEntry :=
  match response with
  | Some text => process_asn_data registry_name text
  | None => []
  end.

(** What the run shows and writes: the abort message, and each file with
    the entries its rows are made from, in order. *)
Inductive event : Type :=
| Print (message : string)
| Rows (path : string) (l : list ASNEntry)
| Summary (path : string) (l : list ASNEntry).

(** [sorted(entries, key=lambda x: int(x.asn))] *)
Definition sorted_by_asn (entries : list ASNEntry) : result (list ASNEntry) :=
  sorted_by Z.ltb (fun x => int (asn x)) entries.

Definition export_global_asn_data (all_asn_data : list ASNEntry) : io event unit :=
  sorted_data <~ lift (sorted_by_asn all_asn_data) ;;
  write (Rows "ASN/CSV/global_asn.csv" sorted_data) ;;;
  write (Rows "ASN/JSON/global_asn.json" sorted_data) ;;;
  write (Rows "ASN/TXT/global_asn.txt" sorted_data).

(** [d[key(entry)].append(entry)] for every entry, on a
    [defaultdict(list)]. *)
Definition group_by (key : ASNEntry -> string) (all_asn_data : list ASNEntry)
    : dict (list ASNEntry) :=
  fold_left (fun d entry => update [] (fun l => (l ++ [entry])%list) (key entry) d)
            all_asn_data [].

Definition export_by_country (all_asn_data : list ASNEntry) : io event unit :=
  let country_data := group_by country all_asn_data in
  for_each country_data (fun '(c, entries) =>
    if negb (String.eqb c "") && negb (String.eqb c "*") then
      sorted_entries <~ lift (sorted_by_asn entries) ;;
      write (Rows ("ASN/CSV/BY_COUNTRY/" ++ c ++ ".csv") sorted_entries) ;;;
      write (Rows ("ASN/JSON/BY_COUNTRY/" ++ c ++ ".json") sorted_entries) ;;;
      write (Rows ("ASN/TXT/BY_COUNTRY/" ++ c ++ ".txt") sorted_entries)
    else ret tt).

Definition export_by_registry (all_asn_data : list ASNEntry) : io event unit :=
  let registry_data := group_by registry all_asn_data in
  for_each registry_data (fun '(r, entries) =>
    sorted_entries <~ lift (sorted_by_asn entries) ;;
    write (Rows ("ASN/CSV/BY_REGISTRY/" ++ r ++ ".csv") sorted_entries) ;;;
    write (Rows ("ASN/JSON/BY_REGISTRY/" ++ r ++ ".json") sorted_entries) ;;;
    write (Rows ("ASN/TXT/BY_REGISTRY/" ++ r ++ ".txt") sorted_entries)).

Definition export_summary (all_asn_data : list ASNEntry) : io event unit :=
  write (Summary "ASN/JSON/summary.json" all_asn_data) ;;;
  write (Summary "ASN/TXT/summary.txt" all_asn_data).

(** [main]; [completed] lists the registries with their responses in the
    order in which the downloads finish.  Of the messages only the abort
    message is kept. *)
Definition main (completed : list (string * option string)) : io event unit :=
  let all_asn_data :=
    flat_map (fun '(registry_name, response) =>
                download_and_process_asn registry_name response) completed in
  match all_asn_data with
  | [] => write (Print "No ASN data collected. Exiting.")
  | _ =>
      export_global_asn_data all_asn_data ;;;
      export_by_country all_asn_data ;;;
      export_by_registry all_asn_data ;;;
      export_summary all_asn_data
  end.

(** The rest of build-asn.py: the rows of the files and the statistics
    of [export_summary] and [main]. *)

Definition to_dict (entry : ASNEntry) : list (string * string) :=
  [("Registry", registry entry); ("Country", country entry); ("ASN", asn entry);
   ("Value", value entry); ("Date", date entry); ("Status", status entry)].

Definition fieldnames : list string :=
  ["Registry"; "Country"; "ASN"; "Value"; "Date"; "Status"].

(** [d[key(entry)] += 1] for every entry, on a [defaultdict(int)]. *)
Definition count_by (key : ASNEntry -> string) (all_asn_data : list ASNEntry) : dict nat :=
  fold_left (fun d entry => update 0%nat S (key entry) d) all_asn_data [].

(** Comparison of the items [(key, count)] of a dictionary, as tuples. *)
Definition item_ltb (a b : string * nat) : bool :=
  if String.eqb (fst a) (fst b) then (snd a <? snd b)%nat else String.ltb (fst a) (fst b).

(** [sorted(items, key=lambda x: x[1], reverse=True)]: by decreasing count,
    items of equal count in their order in the dictionary. *)
Definition sorted_by_count (items : dict nat) : dict nat :=
  sorted (fun a b => (snd b <? snd a)%nat) items.

Record summary : Type := mkSummary {
  total_asns : nat;
  by_country : dict nat;
  by_registry : dict nat;
  by_status : dict nat;
  countries_count : nat;
  registries_count : nat
}.

(** The dictionary that [export_summary] dumps to summary.json. *)
Definition summarize (all_asn_data : list ASNEntry) : summary :=
  let by_country := count_by country all_asn_data in
  let by_registry := count_by registry all_asn_data in
  let by_status := count_by status all_asn_data in
  {| total_asns := length all_asn_data;
     by_country := sorted_by_count by_country;
     by_registry := sorted item_ltb by_registry;
     by_status := sorted item_ltb by_status;
     countries_count := length by_country;
     registries_count := length by_registry |}.

(** The ten countries that summary.txt lists. *)
Definition top_countries (all_asn_data : list ASNEntry) : dict nat :=
  firstn 10 (sorted_by_count (count_by country all_asn_data)).


(** The text written to a TXT file. *)
Definition txt_text (sorted_entries : list ASNEntry) : string :=
  join (String LF EmptyString) (map asn sorted_entries).


End BuildAsn.

(** ** build-curated-lists.py *)

Module Curated.

(** The keys of the two dictionaries of countries, in their order. *)
Definition countries_state : list string := ["IR"; "CU"; "KP"; "SY"].

Definition countries_ofac : list string :=
  ["IR"; "CU"; "KP"; "SY"; "RU"; "BY"; "YE"; "IQ"; "MM"; "CF"; "CD"; "ET";
   "HK"; "LB"; "LY"; "SD"; "VE"; "ZW"].

(** [f.read()] of a file opened in text mode, when the file exists. *)
Definition read (fs : string -> option string) (path : string) : option string :=
  option_map universal_newlines (fs path).

(** What one file adds to the first list: there is no test of the
    content, and an empty text splits into one empty string. *)
Definition state_blocks (fs : string -> option string) (path : string) : list string :=
  match read fs path with
  | Some text => split LF (strip text)
  | None => []
  end.

(** What one file adds to the second list, under [if content:]. *)
Definition ofac_blocks (fs : string -> option string) (path : string) : list string :=
  match read fs path with
  | Some text =>
      let content := strip text in
      if String.eqb content "" then [] else split LF content
  | None => []
  end.

Definition ipv4_file (country_code : string) : string := "TXT/IPV4/" ++ country_code ++ ".txt".
Definition ipv6_file (country_code : string) : string := "TXT/IPV6/" ++ country_code ++ ".txt".

Definition state_sponsors (fs : string -> option string) : list string :=
  flat_map (fun country_code =>
              state_blocks fs (ipv4_file country_code)
              ++ state_blocks fs (ipv6_file country_code))%list countries_state.

Definition ofac_sanctioned (fs : string -> option string) : list string :=
  flat_map (fun country_code =>
              ofac_blocks fs (ipv4_file country_code)
              ++ ofac_blocks fs (ipv6_file country_code))%list countries_ofac.

(** The two files written, with their text. *)
Definition create_curated_lists (fs : string -> option string) : list (string * string) :=
  [("Curated-Lists/StateSponsorsOfTerrorism.txt",
    join (String LF EmptyString) (state_sponsors fs));
   ("Curated-Lists/OFACSanctioned.txt",
    join (String LF EmptyString) (ofac_sanctioned fs))].

End Curated.

(** ** The orders of the sort keys, in the words of the specification *)

(** Lexicographic order of strings, by code point. *)
Definition str_lt (a b : string) : Prop := String.ltb a b = true.

(** (country, family, numeric address): non-decreasing. *)
Definition key_le (k1 k2 : string * string * Z) : Prop :=
  let '(c1, v1, n1) := k1 in
  let '(c2, v2, n2) := k2 in
  str_lt c1 c2 \/ (c1 = c2 /\ (str_lt v1 v2 \/ (v1 = v2 /\ (n1 <= n2)%Z))).

(** IPv4 sorts before IPv6. *)
Definition family_lt (v1 v2 : string) : Prop := v1 = "ipv4" /\ v2 = "ipv6".

Section IpOrder.
Variables IPv4Address IPv6Address : string -> option Z.

(** The order of the keys that [sort_ip_data] computes. *)
Definition ip_key_le (a b : Build.IPPackage) : Prop :=
  key_le (Build.ip_sort_key IPv4Address IPv6Address a)
         (Build.ip_sort_key IPv4Address IPv6Address b).

(** The integer value of the address of a record, read as an address of
    the family of the record; zero when it does not parse. *)
Definition address_value (pkg : Build.IPPackage) : Z :=
  let parsed :=
    if String.eqb (Build.version pkg) "ipv4" then IPv4Address (Build.ip pkg)
    else if String.eqb (Build.version pkg) "ipv6" then IPv6Address (Build.ip pkg)
    else None in
  match parsed with
  | Some n => n
  | None => 0%Z
  end.

(** The canonical order of IP blocks as the specification words it: the
    country code in lexicographic order, then IPv4 before IPv6, then the
    integer value of the address. *)
Definition ip_le (a b : Build.IPPackage) : Prop :=
  str_lt (Build.country a) (Build.country b)
  \/ (Build.country a = Build.country b
      /\ (family_lt (Build.version a) (Build.version b)
          \/ (Build.version a = Build.version b
              /\ (address_value a <= address_value b)%Z))).
End IpOrder.

(** Numeric value of the AS number: non-decreasing. *)
Definition asn_le (a b : BuildAsn.ASNEntry) : Prop :=
  exists m n : Z,
    int (BuildAsn.asn a) = Ok m /\ int (BuildAsn.asn b) = Ok n /\ (m <= n)%Z.

(** The rows of the files of a run. *)
Definition ip_rows (w : list Build.artifact) : list (list Build.IPPackage) :=
  flat_map (fun a => match snd a with
                     | Build.Rows l => [l]
                     | Build.Countries _ => []
                     end) w.

Definition asn_rows (w : list BuildAsn.event) : list (list BuildAsn.ASNEntry) :=
  flat_map (fun e => match e with
                     | BuildAsn.Rows _ l => [l]
                     | _ => []
                     end) w.


(** The range of the prefix length that the data model asks of a record. *)
Definition prefix_in_range (pkg : Build.IPPackage) : Prop :=
  exists n : Z,
    int (Build.prefix_length pkg) = Ok n
    /\ (0 <= n)%Z
    /\ (Build.version pkg = "ipv4" -> (n <= 32)%Z)
    /\ (Build.version pkg = "ipv6" -> (n <= 128)%Z).

(** The gate of the loop of [process_region_data] on a line. *)
Definition mentions_status (line : string) : bool :=
  contains "allocated" line || contains "assigned" line.

(** Sample records. *)
Definition sample_asn_entries : list BuildAsn.ASNEntry :=
  [BuildAsn.mkASNEntry "ripencc" "DE" "3320" "1" "19930901" "allocated";
   BuildAsn.mkASNEntry "apnic" "JP" "173" "1" "20020801" "allocated";
   BuildAsn.mkASNEntry "ripencc" "*" "1101" "1" "19930901" "assigned"].

Definition sample_asn_sorted : list BuildAsn.ASNEntry :=
  [BuildAsn.mkASNEntry "apnic" "JP" "173" "1" "20020801" "allocated";
   BuildAsn.mkASNEntry "ripencc" "*" "1101" "1" "19930901" "assigned";
   BuildAsn.mkASNEntry "ripencc" "DE" "3320" "1" "19930901" "allocated"].

Definition sample_ip_10 : Build.IPPackage := Build.mkIPPackage "JP" "10.0.0.0" "8" "ipv4".
Definition sample_ip_9 : Build.IPPackage := Build.mkIPPackage "JP" "9.0.0.0" "8" "ipv4".

(** A stand-in for the IPv6 constructor where no IPv6 address is read. *)
Definition no_ipv6 : string -> option Z := fun _ => None.

(** The IPv6 constructor on the two addresses of the samples, with the
    integers the library gives; no other text is read with it. *)
Definition sample_ipv6_address_int (s : string) : option Z :=
  if String.eqb s "2001:200::" then Some 42540528726795050063891204319802818560%Z
  else if String.eqb s "2001:218::" then Some 42540530628270950406235306564857626624%Z
  else None.

Definition sample_ip_unsorted : list Build.IPPackage :=
  [Build.mkIPPackage "JP" "10.0.0.0" "8" "ipv4";
   Build.mkIPPackage "JP" "2001:218::" "32" "ipv6";
   Build.mkIPPackage "US" "3.0.0.0" "8" "ipv4";
   Build.mkIPPackage "JP" "9.0.0.0" "8" "ipv4";
   Build.mkIPPackage "JP" "2001:200::" "35" "ipv6";
   Build.mkIPPackage "CN" "1.0.1.0" "24" "ipv4"].

Definition sample_ip_sorted : list Build.IPPackage :=
  [Build.mkIPPackage "CN" "1.0.1.0" "24" "ipv4";
   Build.mkIPPackage "JP" "9.0.0.0" "8" "ipv4";
   Build.mkIPPackage "JP" "10.0.0.0" "8" "ipv4";
   Build.mkIPPackage "JP" "2001:200::" "35" "ipv6";
   Build.mkIPPackage "JP" "2001:218::" "32" "ipv6";
   Build.mkIPPackage "US" "3.0.0.0" "8" "ipv4"].

(** A directory of sources that holds the file of one registry only. *)
Definition only_source (region_name text : string) : string -> option string :=
  fun path =>
    if String.eqb path ("IANASources/" ++ region_name ++ ".txt") then Some text else None.

(** No source was downloaded. *)
Definition no_sources : string -> option string := fun _ => None.

(** Invariants of the grouping loops. *)

(** A list of records taken, in order, from the part [pre] of the sorted
    sequence that has been read so far. *)
Definition taken_from (le : Build.IPPackage -> Build.IPPackage -> Prop)
    (pre es : list Build.IPPackage) : Prop :=
  StronglySorted le es /\ incl es pre.

Definition groups_from (le : Build.IPPackage -> Build.IPPackage -> Prop)
    (pre : list Build.IPPackage) (d : dict Build.versions) : Prop :=
  forall c vs, In (c, vs) d -> taken_from le pre (fst vs) /\ taken_from le pre (snd vs).

(** Every group is non-empty and holds entries of its own key only. *)
Definition keyed (key : BuildAsn.ASNEntry -> string) (d : dict (list BuildAsn.ASNEntry)) : Prop :=
  forall k es, In (k, es) d -> es <> [] /\ Forall (fun e => key e = k) es.

(** The records that one line adds to the list of its source. *)
Definition records_of_line (line : string) : list Build.IPPackage :=
  match Build.process_line line with
  | Ok (Some pkg) => [pkg]
  | _ => []
  end.

(** A family that build.py knows. *)
Definition known_version (pkg : Build.IPPackage) : Prop :=
  Build.version pkg = "ipv4" \/ Build.version pkg = "ipv6".

(** [d.get(k)] *)
Fixpoint lookup {V : Type} (k : string) (d : dict V) : option V :=
  match d with
  | [] => None
  | (k', v) :: r => if String.eqb k' k then Some v else lookup k r
  end.

(** The records of one country and one family, in the order of the list. *)
Definition country_family (c v : string) (l : list Build.IPPackage) : list Build.IPPackage :=
  filter (fun pkg => String.eqb (Build.country pkg) c && String.eqb (Build.version pkg) v) l.


(** The state of the grouping loop of build.py after the records [pre]. *)
Definition grouped (pre : list Build.IPPackage) (d : dict Build.versions) : Prop :=
  NoDup (map fst d)
  /\ forall c : string,
       lookup c d
       = if existsb (fun pkg => String.eqb (Build.country pkg) c) pre
         then Some (country_family c "ipv4" pre, country_family c "ipv6" pre)
         else None.




(** The test of [export_by_country] on the key of a group. *)
Definition named_country_key (c : string) : bool :=
  negb (String.eqb c "") && negb (String.eqb c "*").



(** The entries of a list under one key. *)
Definition with_key (key : BuildAsn.ASNEntry -> string) (k : string)
    (l : list BuildAsn.ASNEntry) : list BuildAsn.ASNEntry :=
  filter (fun e => String.eqb (key e) k) l.

(** The state of a grouping loop of build-asn.py after the entries [pre]. *)
Definition grouped_by (key : BuildAsn.ASNEntry -> string) (pre : list BuildAsn.ASNEntry)
    (d : dict (list BuildAsn.ASNEntry)) : Prop :=
  NoDup (map fst d)
  /\ forall k : string,
       lookup k d = match with_key key k pre with
                    | [] => None
                    | es => Some es
                    end.

(** The state of a counting loop of build-asn.py after the entries [pre]. *)
Definition counted (key : BuildAsn.ASNEntry -> string) (pre : list BuildAsn.ASNEntry)
    (d : dict nat) : Prop :=
  NoDup (map fst d)
  /\ forall k : string,
       lookup k d = match length (with_key key k pre) with
                    | O => None
                    | n => Some n
                    end.

(** [c in s] for one character. *)
Fixpoint has_char (c : ascii) (s : string) : bool :=
  match s with
  | EmptyString => false
  | String c' r => Ascii.eqb c' c || has_char c r
  end.




(** A line of text: no line end inside. *)
Definition one_line (s : string) : Prop := has_char Py.LF s = false /\ has_char Py.CR s = false.

(** A file that exists and holds white space only. *)
Definition blank (fs : string -> option string) (path : string) : Prop :=
  exists text, Curated.read fs path = Some text /\ strip text = "".

(** A source with one record of Japan. *)
Definition sample_source : string -> option string :=
  only_source "delegated-apnic-latest"
              ("apnic|JP|ipv4|103.0.0.0|256|20120101|allocated" ++ nl).

(** The value of a numeral read from the left, as [int_digits] reads it. *)
Fixpoint horner (d : Decimal.uint) (acc : Z) : Z :=
  match d with
  | Decimal.Nil => acc
  | Decimal.D0 l => horner l (10 * acc)
  | Decimal.D1 l => horner l (10 * acc + 1)
  | Decimal.D2 l => horner l (10 * acc + 2)
  | Decimal.D3 l => horner l (10 * acc + 3)
  | Decimal.D4 l => horner l (10 * acc + 4)
  | Decimal.D5 l => horner l (10 * acc + 5)
  | Decimal.D6 l => horner l (10 * acc + 6)
  | Decimal.D7 l => horner l (10 * acc + 7)
  | Decimal.D8 l => horner l (10 * acc + 8)
  | Decimal.D9 l => horner l (10 * acc + 9)
  end%Z.

(** One digit of a numeral read by [int_digits]. *)
Ltac digit_step c v IH :=
  cbn [int_digits]; change (is_decimal c) with true; cbv iota;
  change (digit_value c) with v; apply IH; now right.

Section SameKey.
Variables IPv4Address IPv6Address : string -> option Z.

(** The records whose sort key is [k]. *)
Definition same_key (k : string * string * Z) (pkg : Build.IPPackage) : bool :=
  let '(c, v, n) := Build.ip_sort_key IPv4Address IPv6Address pkg in
  String.eqb c (fst (fst k)) && String.eqb v (snd (fst k)) && (n =? snd k)%Z.
End SameKey.

(** * Properties *)

(** ** Strings *)

Lemma str_compare_refl (s : string) : String.compare s s = Eq.
Proof.
  induction s as [|c s IH]; simpl; [reflexivity|].
  unfold Ascii.compare. now rewrite N.compare_refl.
Qed.

Lemma ascii_compare_lt_trans (a b c : ascii) :
  Ascii.compare a b = Lt -> Ascii.compare b c = Lt -> Ascii.compare a c = Lt.
Proof.
  unfold Ascii.compare. rewrite !N.compare_lt_iff. lia.
Qed.

Lemma str_compare_lt_trans (a b c : string) :
  String.compare a b = Lt -> String.compare b c = Lt -> String.compare a c = Lt.
Proof.
  revert b c.
  induction a as [|x a IH]; intros [|y b] [|z c]; simpl; try congruence.
  destruct (Ascii.compare x y) eqn:Hxy; try discriminate;
    destruct (Ascii.compare y z) eqn:Hyz; try discriminate.
  - apply Ascii.compare_eq_iff in Hxy, Hyz. subst.
    unfold Ascii.compare at 1. rewrite N.compare_refl. apply IH.
  - apply Ascii.compare_eq_iff in Hxy. subst. now rewrite Hyz.
  - apply Ascii.compare_eq_iff in Hyz. subst. now rewrite Hxy.
  - now rewrite (ascii_compare_lt_trans _ _ _ Hxy Hyz).
Qed.

Lemma str_lt_irrefl (a : string) : ~ str_lt a a.
Proof.
  unfold str_lt, String.ltb. now rewrite str_compare_refl.
Qed.

Lemma str_lt_trans (a b c : string) : str_lt a b -> str_lt b c -> str_lt a c.
Proof.
  unfold str_lt, String.ltb. intros Hab Hbc.
  destruct (String.compare a b) eqn:E1; try discriminate.
  destruct (String.compare b c) eqn:E2; try discriminate.
  now rewrite (str_compare_lt_trans _ _ _ E1 E2).
Qed.

Lemma str_lt_asym (a b : string) : str_lt a b -> String.ltb b a = false.
Proof.
  unfold str_lt, String.ltb. rewrite (String.compare_antisym a b).
  now destruct (String.compare b a).
Qed.

Lemma str_ltb_total (a b : string) :
  String.ltb a b = false -> a <> b -> str_lt b a.
Proof.
  unfold str_lt, String.ltb. rewrite (String.compare_antisym b a).
  destruct (String.compare a b) eqn:E; simpl; try congruence.
  apply String.compare_eq_iff in E. congruence.
Qed.

(** ** Keys *)

Lemma tuple3_ltb_le (k1 k2 : string * string * Z) :
  tuple3_ltb k1 k2 = true -> key_le k1 k2.
Proof.
  destruct k1 as [[c1 v1] n1], k2 as [[c2 v2] n2]. simpl.
  destruct (String.eqb_spec c1 c2) as [->|Hc]; [|now left].
  destruct (String.eqb_spec v1 v2) as [->|Hv].
  - intros H. apply Z.ltb_lt in H. right. split; [reflexivity|]. right. split; [reflexivity|lia].
  - intros H. right. split; [reflexivity|]. now left.
Qed.

Lemma tuple3_nlt_le (k1 k2 : string * string * Z) :
  tuple3_ltb k1 k2 = false -> key_le k2 k1.
Proof.
  destruct k1 as [[c1 v1] n1], k2 as [[c2 v2] n2]. simpl.
  destruct (String.eqb_spec c1 c2) as [->|Hc].
  - destruct (String.eqb_spec v1 v2) as [->|Hv].
    + intros H. apply Z.ltb_ge in H. right. split; [reflexivity|]. right. now split.
    + intros H. right. split; [reflexivity|]. left. now apply str_ltb_total.
  - intros H. left. now apply str_ltb_total.
Qed.

Lemma key_le_trans (k1 k2 k3 : string * string * Z) :
  key_le k1 k2 -> key_le k2 k3 -> key_le k1 k3.
Proof.
  destruct k1 as [[c1 v1] n1], k2 as [[c2 v2] n2], k3 as [[c3 v3] n3]. simpl.
  intros [H1|[-> H1]] [H2|[-> H2]].
  - left. eapply str_lt_trans; eassumption.
  - now left.
  - now left.
  - right. split; [reflexivity|].
    destruct H1 as [H1|[-> H1]], H2 as [H2|[-> H2]].
    + left. eapply str_lt_trans; eassumption.
    + now left.
    + now left.
    + right. split; [reflexivity|lia].
Qed.

(** ** [sorted] *)

Section SortedFacts.
Context {A : Type} (ltb : A -> A -> bool) (le : A -> A -> Prop).
Hypothesis lt_le : forall a b, ltb a b = true -> le a b.
Hypothesis nlt_le : forall a b, ltb a b = false -> le b a.

Lemma insert_perm (x : A) (l : list A) : Permutation (insert ltb x l) (x :: l).
Proof.
  induction l as [|y l IH]; simpl; [reflexivity|].
  destruct (ltb y x); [|reflexivity].
  rewrite IH. apply perm_swap.
Qed.

Lemma sorted_perm (l : list A) : Permutation (sorted ltb l) l.
Proof.
  induction l as [|x l IH]; simpl; [reflexivity|].
  rewrite insert_perm. now constructor.
Qed.

Lemma insert_hdrel (x y : A) (l : list A) :
  le y x -> HdRel le y l -> HdRel le y (insert ltb x l).
Proof.
  intros Hyx Hl. destruct l as [|z l]; simpl; [now constructor|].
  inversion Hl; subst. destruct (ltb z x); now constructor.
Qed.

Lemma insert_Sorted (x : A) (l : list A) :
  Sorted le l -> Sorted le (insert ltb x l).
Proof.
  induction 1 as [|y l Hs IH Hd]; simpl; [repeat constructor|].
  destruct (ltb y x) eqn:E.
  - constructor; [assumption|]. apply insert_hdrel; auto.
  - constructor; [now constructor|]. constructor. now apply nlt_le.
Qed.

Lemma sorted_Sorted (l : list A) : Sorted le (sorted ltb l).
Proof.
  induction l as [|x l IH]; simpl; [constructor|]. now apply insert_Sorted.
Qed.
End SortedFacts.

Section SortedTrans.
Context {A : Type} (le : A -> A -> Prop).
Hypothesis le_trans : forall a b c, le a b -> le b c -> le a c.

Lemma Sorted_strongly (l : list A) : Sorted le l -> StronglySorted le l.
Proof.
  apply Sorted_StronglySorted. exact le_trans.
Qed.

Lemma StronglySorted_filter (p : A -> bool) (l : list A) :
  StronglySorted le l -> StronglySorted le (filter p l).
Proof.
  induction 1 as [|x l Hs IH Hx]; simpl; [constructor|].
  destruct (p x); [|assumption].
  constructor; [assumption|].
  rewrite Forall_forall in *. intros y Hy. apply filter_In in Hy. now apply Hx.
Qed.

Lemma Sorted_filter (p : A -> bool) (l : list A) :
  Sorted le l -> Sorted le (filter p l).
Proof.
  intros H. apply StronglySorted_Sorted, StronglySorted_filter, Sorted_strongly, H.
Qed.
End SortedTrans.

(** ** The line parser and the prefix deriver of build.py *)

Lemma int_32_minus_log2_pow2 (k : Z) :
  (0 <= k <= 32)%Z -> int_32_minus_log2 (2 ^ k) = Ok (32 - k)%Z.
Proof.
  intros Hk. unfold int_32_minus_log2.
  assert (0 < 2 ^ k)%Z by (apply Z.pow_pos_nonneg; lia).
  assert (2 ^ k <= 2 ^ 32)%Z by (apply Z.pow_le_mono_r; lia).
  destruct (2 ^ k <=? 0)%Z eqn:E0; [apply Z.leb_le in E0; lia|].
  destruct (2 ^ k <=? 2 ^ 32)%Z eqn:E1; [|apply Z.leb_gt in E1; lia].
  rewrite Z.log2_up_pow2 by lia. reflexivity.
Qed.

Lemma int_32_minus_log2_range (n p : Z) :
  int_32_minus_log2 n = Ok p ->
  (1 <= n)%Z /\ ((n <= 2 ^ 32)%Z -> (0 <= p <= 32)%Z) /\ ((2 ^ 32 < n)%Z -> (p <= 0)%Z).
Proof.
  unfold int_32_minus_log2.
  destruct (n <=? 0)%Z eqn:E0; [discriminate|]. apply Z.leb_gt in E0.
  destruct (n <=? 2 ^ 32)%Z eqn:E1; intros Hp;
    [assert (p = 32 - Z.log2_up n)%Z by congruence
    |assert (p = 32 - Z.log2 n)%Z by congruence]; subst p; clear Hp.
  - apply Z.leb_le in E1. split; [lia|]. split; [|lia]. intros _.
    pose proof (Z.log2_up_nonneg n).
    assert (Hm : (Z.log2_up n <= Z.log2_up (2 ^ 32))%Z) by (apply Z.log2_up_le_mono; lia).
    change (Z.log2_up (2 ^ 32)) with 32%Z in Hm. lia.
  - apply Z.leb_gt in E1. split; [lia|]. split; [lia|]. intros _.
    assert (Hm : (Z.log2 (2 ^ 32) <= Z.log2 n)%Z) by (apply Z.log2_le_mono; lia).
    change (Z.log2 (2 ^ 32)) with 32%Z in Hm. lia.
Qed.

(** What is known of a line that gave a record. *)
Lemma build_process_line_inv (line : string) (pkg : Build.IPPackage) :
  Build.process_line line = Ok (Some pkg) ->
  let parts := split "|" (strip line) in
  (contains "allocated" line || contains "assigned" line = true)
  /\ (5 <= length parts)%nat
  /\ Build.country pkg = nth 1 parts ""
  /\ Build.ip pkg = nth 3 parts ""
  /\ Build.version pkg = nth 2 parts ""
  /\ isdigit (nth 4 parts "") = true
  /\ ((Build.version pkg = "ipv4"
       /\ exists n p : Z, int (nth 4 parts "") = Ok n
                          /\ int_32_minus_log2 n = Ok p
                          /\ Build.prefix_length pkg = str p)
      \/ (Build.version pkg = "ipv6"
          /\ Build.prefix_length pkg = nth 4 parts "")).
Proof.
  unfold Build.process_line. cbv zeta.
  destruct (contains "allocated" line || contains "assigned" line); [|discriminate].
  destruct (5 <=? length (split "|" (strip line)))%nat eqn:Hlen; [|discriminate].
  apply Nat.leb_le in Hlen.
  destruct (String.eqb_spec (nth 2 (split "|" (strip line)) "") "ipv4") as [H4|H4]; simpl.
  - destruct (isdigit (nth 4 (split "|" (strip line)) "")) eqn:Hd; simpl.
    + destruct (int (nth 4 (split "|" (strip line)) "")) as [n|] eqn:Hn; simpl; [|discriminate].
      destruct (int_32_minus_log2 n) as [p|] eqn:Hp; simpl; [|discriminate].
      intros [= <-]. simpl. repeat (split; [solve [auto]|]).
      left. split; [assumption|]. now exists n, p.
    + rewrite H4. simpl. discriminate.
  - destruct (String.eqb_spec (nth 2 (split "|" (strip line)) "") "ipv6") as [H6|H6]; simpl.
    + destruct (isdigit (nth 4 (split "|" (strip line)) "")) eqn:Hd; simpl; [|discriminate].
      intros [= <-]. simpl. repeat (split; [solve [auto]|]).
      right. now split.
    + discriminate.
Qed.

(** C1: a line that passes the tests of the loop (a status word, five
    fields, a digit value) gives a record with the second and fourth fields
    as country and address: for the type ipv4 and a count [2^k],
    [0 <= k <= 32], the prefix length is [32 - k] (256 gives 24); for the
    type ipv6 it is the value field unchanged.  No other line gives a
    record. *)
Theorem prefix_length_derivation (line : string) :
  let parts := split "|" (strip line) in
  let value := nth 4 parts "" in
  (mentions_status line = true -> (5 <= length parts)%nat -> isdigit value = true ->
   (nth 2 parts "" = "ipv4" ->
    forall k : Z, (0 <= k <= 32)%Z -> int value = Ok (2 ^ k)%Z ->
      Build.process_line line
      = Ok (Some (Build.mkIPPackage (nth 1 parts "") (nth 3 parts "") (str (32 - k)) "ipv4")))
   /\ (nth 2 parts "" = "ipv6" ->
       Build.process_line line
       = Ok (Some (Build.mkIPPackage (nth 1 parts "") (nth 3 parts "") value "ipv6"))))
  /\ (forall pkg : Build.IPPackage,
        Build.process_line line = Ok (Some pkg) ->
        mentions_status line = true
        /\ (5 <= length parts)%nat
        /\ isdigit value = true
        /\ Build.version pkg = nth 2 parts ""
        /\ (Build.version pkg = "ipv4" \/ Build.version pkg = "ipv6")).
Proof.
  cbv zeta. split.
  - unfold mentions_status, Build.process_line. cbv zeta. intros Hs Hlen Hd.
    rewrite Hs, (proj2 (Nat.leb_le _ _) Hlen). split.
    + intros H4 k Hk Hval. rewrite H4, String.eqb_refl, Hd. cbn [andb].
      rewrite Hval. cbn [bind]. rewrite (int_32_minus_log2_pow2 k Hk). reflexivity.
    + intros H6. rewrite H6, String.eqb_refl, Hd.
      change (String.eqb "ipv6" "ipv4") with false. reflexivity.
  - intros pkg Hacc.
    destruct (build_process_line_inv _ _ Hacc) as (Hs & Hlen & _ & _ & Hv & Hd & Hcase).
    unfold mentions_status. repeat (split; [assumption|]).
    destruct Hcase as [(H & _)|(H & _)]; auto.
Qed.

Lemma prefix_length_derivation_example :
  Build.process_line ("apnic|JP|ipv4|103.0.0.0|256|20120101|allocated" ++ nl)
  = Ok (Some (Build.mkIPPackage "JP" "103.0.0.0" "24" "ipv4"))
  /\ Build.process_line ("apnic|JP|ipv6|2001:200::|35|19990813|allocated" ++ nl)
     = Ok (Some (Build.mkIPPackage "JP" "2001:200::" "35" "ipv6")).
Proof.
  split.
  - refine (proj1 (proj1 (prefix_length_derivation
                            ("apnic|JP|ipv4|103.0.0.0|256|20120101|allocated" ++ nl))
                         eq_refl _ eq_refl)
                  eq_refl 8%Z _ eq_refl).
    + vm_compute. repeat constructor.
    + lia.
  - refine (proj2 (proj1 (prefix_length_derivation
                            ("apnic|JP|ipv6|2001:200::|35|19990813|allocated" ++ nl))
                         eq_refl _ eq_refl)
                  eq_refl).
    vm_compute. repeat constructor.
Defined.

(** ** Files written *)

Lemma In_io_bind {W A B : Type} (m : io W A) (k : A -> io W B) (w : W) :
  In w (fst (io_bind m k)) ->
  In w (fst m) \/ exists a : A, snd m = Ok a /\ In w (fst (k a)).
Proof.
  destruct m as [ws [a|e]]; simpl.
  - destruct (k a) as [ws' r] eqn:E. simpl. intros H.
    apply in_app_or in H as [H|H]; [now left|].
    right. exists a. rewrite E. now split.
  - now left.
Qed.

Lemma In_for_each {W A : Type} (l : list A) (body : A -> io W unit) (w : W) :
  In w (fst (for_each l body)) -> exists x : A, In x l /\ In w (fst (body x)).
Proof.
  induction l as [|x l IH]; simpl; [contradiction|].
  intros H. apply In_io_bind in H as [H|(_ & _ & H)].
  - exists x. auto.
  - destruct (IH H) as (y & Hy & Hw). exists y. auto.
Qed.

Lemma In_update {V : Type} (dflt : V) (f : V -> V) (k : string) (d : dict V)
    (c : string) (v : V) :
  In (c, v) (update dflt f k d) ->
  In (c, v) d \/ (c = k /\ (v = f dflt \/ exists v0 : V, In (k, v0) d /\ v = f v0)).
Proof.
  induction d as [|[k' v'] d IH]; simpl.
  - intros [[= <- <-]|[]]. right. auto.
  - destruct (String.eqb_spec k' k) as [->|Hk]; simpl.
    + intros [[= <- <-]|H]; [|auto].
      right. split; [reflexivity|]. right. exists v'. auto.
    + intros [H|H]; [auto|].
      destruct (IH H) as [H'|(-> & [->|(v0 & Hv0 & ->)])]; [auto|auto|].
      right. split; [reflexivity|]. right. exists v0. auto.
Qed.

(** ** The views of build.py keep the order *)

Section GroupsSorted.
Variable le : Build.IPPackage -> Build.IPPackage -> Prop.

Lemma taken_from_nil (pre : list Build.IPPackage) : taken_from le pre [].
Proof.
  split; [constructor|]. intros x [].
Qed.

Lemma taken_from_grow (pre es : list Build.IPPackage) (x : Build.IPPackage) :
  taken_from le pre es -> taken_from le (pre ++ [x]) es.
Proof.
  intros [Hs Hi]. split; [assumption|].
  intros y Hy. apply in_or_app. left. now apply Hi.
Qed.

Lemma StronglySorted_snoc (es : list Build.IPPackage) (x : Build.IPPackage) :
  StronglySorted le es -> Forall (fun y => le y x) es -> StronglySorted le (es ++ [x]).
Proof.
  induction 1 as [|y es Hs IH Hy]; simpl; intros Hx.
  - repeat constructor.
  - inversion Hx; subst. constructor; [auto|].
    apply Forall_app. split; [assumption|]. now repeat constructor.
Qed.

Lemma StronglySorted_app_cons (pre l : list Build.IPPackage) (x : Build.IPPackage) :
  StronglySorted le (pre ++ x :: l) -> Forall (fun y => le y x) pre.
Proof.
  induction pre as [|y pre IH]; simpl; intros H; [constructor|].
  inversion H; subst. constructor; [|auto].
  rewrite Forall_forall in *. match goal with Hy : forall _, In _ _ -> le y _ |- _ => apply Hy end.
  apply in_or_app. right. now left.
Qed.

Lemma taken_from_snoc (pre l es : list Build.IPPackage) (x : Build.IPPackage) :
  StronglySorted le (pre ++ x :: l) -> taken_from le pre es -> taken_from le (pre ++ [x]) (es ++ [x]).
Proof.
  intros Hs [Hes Hi]. split.
  - apply StronglySorted_snoc; [assumption|].
    pose proof (StronglySorted_app_cons _ _ _ Hs) as Hpre.
    rewrite Forall_forall in *. intros y Hy. apply Hpre, Hi, Hy.
  - intros y Hy. apply in_app_or in Hy as [Hy|Hy]; apply in_or_app; [left; auto|now right].
Qed.

Lemma fold_group_step_raise (l : list Build.IPPackage) (e : exn) :
  fold_left Build.group_step l (Raise e) = Raise e.
Proof.
  induction l as [|x l IH]; simpl; auto.
Qed.

Lemma group_step_from (pre l : list Build.IPPackage) (x : Build.IPPackage)
    (d d1 : dict Build.versions) :
  StronglySorted le (pre ++ x :: l) -> groups_from le pre d ->
  Build.group_step (Ok d) x = Ok d1 -> groups_from le (pre ++ [x]) d1.
Proof.
  intros Hs Hd. unfold Build.group_step. simpl.
  destruct (String.eqb (Build.version x) "ipv4").
  - intros [= <-] c vs Hin.
    apply In_update in Hin as [Hin|(-> & [->|(v0 & Hv0 & ->)])]; simpl.
    + destruct (Hd _ _ Hin). split; now apply taken_from_grow.
    + split; [|apply taken_from_nil].
      apply (taken_from_snoc pre l [] x Hs), taken_from_nil.
    + destruct (Hd _ _ Hv0). split; [|now apply taken_from_grow].
      now apply (taken_from_snoc pre l).
  - destruct (String.eqb (Build.version x) "ipv6"); [|discriminate].
    intros [= <-] c vs Hin.
    apply In_update in Hin as [Hin|(-> & [->|(v0 & Hv0 & ->)])]; simpl.
    + destruct (Hd _ _ Hin). split; now apply taken_from_grow.
    + split; [apply taken_from_nil|].
      apply (taken_from_snoc pre l [] x Hs), taken_from_nil.
    + destruct (Hd _ _ Hv0). split; [now apply taken_from_grow|].
      now apply (taken_from_snoc pre l).
Qed.

Lemma fold_group_step_from (l pre : list Build.IPPackage) (d d' : dict Build.versions) :
  StronglySorted le (pre ++ l) -> groups_from le pre d ->
  fold_left Build.group_step l (Ok d) = Ok d' -> groups_from le (pre ++ l) d'.
Proof.
  revert pre d. induction l as [|x l IH]; intros pre d Hs Hd; cbn [fold_left].
  - intros [= <-]. now rewrite app_nil_r.
  - destruct (Build.group_step (Ok d) x) as [d1|e] eqn:E.
    + intros Hf.
      assert (Happ : (pre ++ x :: l = (pre ++ [x]) ++ l)%list)
        by (rewrite <- app_assoc; reflexivity).
      rewrite Happ. apply (IH (pre ++ [x])%list d1); [|now apply (group_step_from pre l x d)|assumption].
      now rewrite <- Happ.
    + rewrite fold_group_step_raise. discriminate.
Qed.

Lemma group_by_country_sorted (l : list Build.IPPackage) (d : dict Build.versions) :
  StronglySorted le l -> Build.group_by_country l = Ok d ->
  forall c vs, In (c, vs) d -> StronglySorted le (fst vs) /\ StronglySorted le (snd vs).
Proof.
  intros Hs Hg c vs Hin.
  assert (H : groups_from le ([] ++ l) d).
  { apply (fold_group_step_from l [] [] d); [assumption| |assumption].
    intros ? ? []. }
  destruct (H _ _ Hin) as [[H1 _] [H2 _]]. now split.
Qed.
End GroupsSorted.

Section IpViews.
Variables IPv4Address IPv6Address : string -> option Z.

Let le := ip_key_le IPv4Address IPv6Address.

Lemma ip_le_trans (a b c : Build.IPPackage) : le a b -> le b c -> le a c.
Proof.
  apply key_le_trans.
Qed.

Lemma sort_ip_data_Sorted (ip_data : list Build.IPPackage) :
  Sorted le (Build.sort_ip_data IPv4Address IPv6Address ip_data).
Proof.
  apply sorted_Sorted; intros a b H.
  - now apply tuple3_ltb_le.
  - now apply tuple3_nlt_le.
Qed.

Lemma sort_ip_data_perm (ip_data : list Build.IPPackage) :
  Permutation (Build.sort_ip_data IPv4Address IPv6Address ip_data) ip_data.
Proof.
  apply sorted_perm.
Qed.

Lemma version_view_Sorted (l : list Build.IPPackage) (v : string) :
  Sorted le l -> Sorted le (Build.version_view l v).
Proof.
  apply Sorted_filter, ip_le_trans.
Qed.

Lemma write_group_rows (c v : string) (packages : list Build.IPPackage) (a : Build.artifact) :
  In a (fst (Build.write_group c v packages)) -> snd a = Build.Rows packages.
Proof.
  destruct packages as [|x l]; simpl; [contradiction|].
  intros [<-|[<-|[<-|[]]]]; reflexivity.
Qed.

Lemma export_country_data_rows (l rows : list Build.IPPackage) :
  Sorted le l -> In rows (ip_rows (fst (Build.export_country_data l))) -> Sorted le rows.
Proof.
  intros Hs Hin. unfold ip_rows in Hin.
  apply in_flat_map in Hin as (a & Ha & Hrows).
  unfold Build.export_country_data in Ha.
  apply In_io_bind in Ha as [[]|(d & Hd & Ha)].
  apply In_for_each in Ha as ([c vs] & Hcv & Ha).
  simpl in Hd.
  destruct (group_by_country_sorted le l d (Sorted_strongly le ip_le_trans l Hs) Hd c vs Hcv)
    as [H4 H6].
  apply In_io_bind in Ha as [Ha|(_ & _ & Ha)];
    apply write_group_rows in Ha; rewrite Ha in Hrows;
    destruct Hrows as [<-|[]]; now apply StronglySorted_Sorted.
Qed.

(** Every file of records that [main] writes lists them in the order of
    the sort keys. *)
Lemma build_main_rows (fs : string -> option string) (rows : list Build.IPPackage) :
  In rows (ip_rows (fst (Build.main IPv4Address IPv6Address fs))) -> Sorted le rows.
Proof.
  unfold Build.main. cbv zeta.
  set (sorted_data := Build.sort_ip_data IPv4Address IPv6Address (Build.collect fs)).
  assert (Hs : Sorted le sorted_data) by apply sort_ip_data_Sorted.
  intros Hin. unfold ip_rows in Hin. apply in_flat_map in Hin as (a & Ha & Hrows).
  apply In_io_bind in Ha as [Ha|(_ & _ & Ha)].
  { simpl in Ha. destruct Ha as [<-|[<-|[<-|[]]]]; destruct Hrows. }
  apply In_io_bind in Ha as [Ha|(_ & _ & Ha)].
  { simpl in Ha. destruct Ha as [<-|[<-|[<-|[]]]]; destruct Hrows as [<-|[]]; exact Hs. }
  apply In_io_bind in Ha as [Ha|(_ & _ & Ha)].
  { simpl in Ha. destruct Ha as [<-|[<-|[<-|[]]]]; destruct Hrows as [<-|[]];
      now apply version_view_Sorted. }
  apply In_io_bind in Ha as [Ha|(_ & _ & Ha)].
  { simpl in Ha. destruct Ha as [<-|[<-|[<-|[]]]]; destruct Hrows as [<-|[]];
      now apply version_view_Sorted. }
  apply (export_country_data_rows sorted_data rows Hs).
  unfold ip_rows. apply in_flat_map. exists a. now split.
Qed.
End IpViews.

(** ** The sort of build-asn.py *)

Lemma keys_spec {A K : Type} (f : A -> result K) (l : list A) (kl : list (K * A)) :
  keys f l = Ok kl ->
  map snd kl = l /\ Forall (fun p => f (snd p) = Ok (fst p)) kl.
Proof.
  revert kl. induction l as [|x l IH]; simpl; intros kl.
  - intros [= <-]. split; constructor.
  - destruct (f x) as [k|e] eqn:Ek; simpl; [|discriminate].
    destruct (keys f l) as [kr|e] eqn:Er; simpl; [|discriminate].
    intros [= <-]. destruct (IH kr eq_refl) as [Hm Hf]. simpl. split.
    + now rewrite Hm.
    + now constructor.
Qed.

Lemma Sorted_map_where {A B : Type} (Rp : A -> A -> Prop) (R : B -> B -> Prop)
    (Q : A -> Prop) (g : A -> B) (l : list A) :
  (forall p q, Q p -> Q q -> Rp p q -> R (g p) (g q)) ->
  Forall Q l -> Sorted Rp l -> Sorted R (map g l).
Proof.
  intros HR HQ Hs. induction Hs as [|p l Hs IH Hd]; simpl; [constructor|].
  inversion HQ; subst. constructor; [auto|].
  destruct Hd as [|q l' Hpq]; simpl; constructor.
  match goal with H : Forall Q (q :: l') |- _ => inversion H; subst end. auto.
Qed.

Lemma sorted_by_asn_perm (entries out : list BuildAsn.ASNEntry) :
  BuildAsn.sorted_by_asn entries = Ok out -> Permutation out entries.
Proof.
  unfold BuildAsn.sorted_by_asn, sorted_by.
  destruct (keys (fun x => int (BuildAsn.asn x)) entries) as [kl|e] eqn:Ek; simpl; [|discriminate].
  intros [= <-]. destruct (keys_spec _ _ _ Ek) as [Hm _].
  rewrite <- Hm. apply Permutation_map, sorted_perm.
Qed.

Lemma sorted_by_asn_Sorted (entries out : list BuildAsn.ASNEntry) :
  BuildAsn.sorted_by_asn entries = Ok out -> Sorted asn_le out.
Proof.
  unfold BuildAsn.sorted_by_asn, sorted_by.
  destruct (keys (fun x => int (BuildAsn.asn x)) entries) as [kl|e] eqn:Ek; simpl; [|discriminate].
  intros [= <-]. destruct (keys_spec _ _ _ Ek) as [_ Hf].
  set (ltp := fun p q : Z * BuildAsn.ASNEntry => (fst p <? fst q)%Z).
  apply (Sorted_map_where (fun p q => (fst p <= fst q)%Z) asn_le
           (fun p => int (BuildAsn.asn (snd p)) = Ok (fst p))).
  - intros p q Hp Hq Hpq. exists (fst p), (fst q). auto.
  - rewrite Forall_forall in *. intros p Hp. apply Hf.
    apply (Permutation_in p (sorted_perm ltp kl) Hp).
  - apply sorted_Sorted; unfold ltp; intros a b H.
    + apply Z.ltb_lt in H. lia.
    + apply Z.ltb_ge in H. lia.
Qed.

Lemma sorted_by_asn_rows (entries : list BuildAsn.ASNEntry) (k : list BuildAsn.ASNEntry -> io BuildAsn.event unit)
    (rows : list BuildAsn.ASNEntry) :
  (forall s r, In r (asn_rows (fst (k s))) -> r = s) ->
  In rows (asn_rows (fst (io_bind (lift (BuildAsn.sorted_by_asn entries)) k))) ->
  Sorted asn_le rows.
Proof.
  intros Hk Hin. unfold asn_rows in Hin. apply in_flat_map in Hin as (ev & Hev & Hrows).
  apply In_io_bind in Hev as [[]|(s & Hs & Hev)]. simpl in Hs.
  assert (rows = s) as ->.
  { apply Hk. unfold asn_rows. apply in_flat_map. exists ev. now split. }
  now apply (sorted_by_asn_Sorted entries).
Qed.

Lemma asn_rows_io_bind {A B : Type} (m : io BuildAsn.event A) (k : A -> io BuildAsn.event B)
    (rows : list BuildAsn.ASNEntry) :
  In rows (asn_rows (fst (io_bind m k))) ->
  In rows (asn_rows (fst m)) \/ exists a, snd m = Ok a /\ In rows (asn_rows (fst (k a))).
Proof.
  unfold asn_rows. intros H. apply in_flat_map in H as (ev & Hev & Hrows).
  apply In_io_bind in Hev as [Hev|(a & Ha & Hev)].
  - left. apply in_flat_map. exists ev. now split.
  - right. exists a. split; [assumption|]. apply in_flat_map. exists ev. now split.
Qed.

Lemma asn_rows_for_each {A : Type} (l : list A) (body : A -> io BuildAsn.event unit)
    (rows : list BuildAsn.ASNEntry) :
  In rows (asn_rows (fst (for_each l body))) ->
  exists x, In x l /\ In rows (asn_rows (fst (body x))).
Proof.
  unfold asn_rows. intros H. apply in_flat_map in H as (ev & Hev & Hrows).
  apply In_for_each in Hev as (x & Hx & Hev).
  exists x. split; [assumption|]. apply in_flat_map. exists ev. now split.
Qed.

Lemma three_writes_rows (p1 p2 p3 : string) (s r : list BuildAsn.ASNEntry) :
  In r (asn_rows (fst (write (BuildAsn.Rows p1 s) ;;;
                       write (BuildAsn.Rows p2 s) ;;;
                       write (BuildAsn.Rows p3 s)))) -> r = s.
Proof.
  simpl. intros [<-|[<-|[<-|[]]]]; reflexivity.
Qed.

(** Every file of entries that [main] writes lists them by the numeric
    value of the AS number. *)
Lemma asn_main_rows (completed : list (string * option string)) (rows : list BuildAsn.ASNEntry) :
  In rows (asn_rows (fst (BuildAsn.main completed))) -> Sorted asn_le rows.
Proof.
  unfold BuildAsn.main. cbv zeta.
  destruct (flat_map _ completed) as [|e all] eqn:E; [intros []|].
  intros H. apply asn_rows_io_bind in H as [H|(_ & _ & H)].
  { revert H. apply sorted_by_asn_rows. intros s r. apply three_writes_rows. }
  apply asn_rows_io_bind in H as [H|(_ & _ & H)].
  { apply asn_rows_for_each in H as ([c entries] & _ & H).
    destruct (negb (c =? "") && negb (c =? "*")); [|destruct H].
    revert H. apply sorted_by_asn_rows. intros s r. apply three_writes_rows. }
  apply asn_rows_io_bind in H as [H|(_ & _ & H)].
  { apply asn_rows_for_each in H as ([r entries] & _ & H).
    revert H. apply sorted_by_asn_rows. intros s r'. apply three_writes_rows. }
  destruct H as [].
Qed.

Example ipv4_address_int_values :
  ipv4_address_int "103.0.0.0" = Some 1728053248%Z
  /\ ipv4_address_int "1.2.3.4" = Some 16909060%Z
  /\ ipv4_address_int "01.2.3.4" = None
  /\ ipv4_address_int "1.2.3" = None
  /\ ipv4_address_int "1.2.3.256" = None.
Proof.
  repeat split.
Qed.

(** ** The list of countries *)

Lemma Sorted_strict (l : list string) :
  Sorted (fun a b => String.ltb b a = false) l -> NoDup l -> Sorted str_lt l.
Proof.
  induction 1 as [|a l Hs IH Hd]; intros Hn; [constructor|].
  inversion Hn; subst. constructor; [auto|].
  destruct Hd as [|b l' Hab]; constructor.
  apply str_ltb_total; [assumption|].
  intros ->. match goal with H : ~ In _ _ |- _ => apply H end. now left.
Qed.

Lemma countries_of_spec (sorted_data : list Build.IPPackage) :
  let countries := Build.countries_of sorted_data in
  (forall c : string,
      In c countries <-> exists pkg, In pkg sorted_data /\ Build.country pkg = c)
  /\ NoDup countries
  /\ Sorted str_lt countries.
Proof.
  cbv zeta. unfold Build.countries_of.
  set (codes := nodup string_dec (map Build.country sorted_data)).
  pose proof (sorted_perm String.ltb codes) as Hp.
  assert (Hn : NoDup (sorted String.ltb codes)).
  { apply (Permutation_NoDup (Permutation_sym Hp)), NoDup_nodup. }
  split; [|split; [exact Hn|]].
  - intros c. split.
    + intros H. apply (Permutation_in _ Hp) in H. apply nodup_In in H.
      apply in_map_iff in H as (pkg & Hc & Hpkg). now exists pkg.
    + intros (pkg & Hpkg & <-).
      apply (Permutation_in _ (Permutation_sym Hp)), nodup_In, in_map, Hpkg.
  - apply Sorted_strict; [|exact Hn].
    apply sorted_Sorted with (le := fun a b => String.ltb b a = false).
    + intros a b. apply str_lt_asym.
    + auto.
Qed.

(** C10: the exported list of countries holds exactly the country codes
    of the records, each once, in increasing lexicographic order, and
    leaves none out: the wildcard and the empty code are listed when a
    record has them. *)
Theorem countries_list_complete (sorted_data : list Build.IPPackage) :
  let countries := Build.countries_of sorted_data in
  Build.export_countries_list sorted_data
  = ([("CSV/countries.csv", Build.Countries countries);
      ("JSON/countries.json", Build.Countries countries);
      ("TXT/countries.txt", Build.Countries countries)], Ok tt)
  /\ (forall c : string,
         In c countries <-> exists pkg, In pkg sorted_data /\ Build.country pkg = c)
  /\ NoDup countries
  /\ Sorted str_lt countries
  /\ (forall pkg, In pkg sorted_data -> Build.country pkg = "*" -> In "*" countries)
  /\ (forall pkg, In pkg sorted_data -> Build.country pkg = "" -> In "" countries).
Proof.
  destruct (countries_of_spec sorted_data) as (Hin & Hnd & Hs). cbv zeta in *.
  split; [reflexivity|].
  split; [exact Hin|]. split; [exact Hnd|]. split; [exact Hs|].
  split; intros pkg Hpkg Hc; apply Hin; now exists pkg.
Qed.

Lemma countries_list_example :
  Build.countries_of
    [Build.mkIPPackage "JP" "103.0.0.0" "24" "ipv4";
     Build.mkIPPackage "*" "80.0.0.0" "16" "ipv4";
     Build.mkIPPackage "" "2001:db8::" "32" "ipv6";
     Build.mkIPPackage "JP" "2001:200::" "35" "ipv6"]
  = [""; "*"; "JP"]
  /\ In "*" (Build.countries_of
               [Build.mkIPPackage "JP" "103.0.0.0" "24" "ipv4";
                Build.mkIPPackage "*" "80.0.0.0" "16" "ipv4";
                Build.mkIPPackage "" "2001:db8::" "32" "ipv6";
                Build.mkIPPackage "JP" "2001:200::" "35" "ipv6"]).
Proof.
  split; [reflexivity|].
  refine (proj1 (proj2 (proj2 (proj2 (proj2 (countries_list_complete _)))))
                (Build.mkIPPackage "*" "80.0.0.0" "16" "ipv4") _ eq_refl).
  simpl. auto.
Defined.

(** ** Grouping in build-asn.py *)

Section GroupBy.
Variable key : BuildAsn.ASNEntry -> string.

Let step (d : dict (list BuildAsn.ASNEntry)) (entry : BuildAsn.ASNEntry) :=
  update [] (fun l => (l ++ [entry])%list) (key entry) d.




Lemma fold_step_keyed (l : list BuildAsn.ASNEntry) (d : dict (list BuildAsn.ASNEntry)) :
  keyed key d -> keyed key (fold_left step l d).
Proof.
  revert d. induction l as [|e l IH]; intros d Hd; simpl; [assumption|].
  apply IH. intros k es Hin. unfold step in Hin.
  apply In_update in Hin as [Hin|(-> & [->|(v0 & Hv0 & ->)])].
  - now apply Hd.
  - split; [discriminate|]. now repeat constructor.
  - destruct (Hd _ _ Hv0) as [_ Hf]. split.
    + now destruct v0.
    + apply Forall_app. split; [assumption|]. now repeat constructor.
Qed.

(** A group holds entries of its own key only, and at least one. *)
Lemma group_by_keyed (l : list BuildAsn.ASNEntry) : keyed key (BuildAsn.group_by key l).
Proof.
  apply (fold_step_keyed l []). intros ? ? [].
Qed.


End GroupBy.




Lemma for_each_ok {W A : Type} (l : list A) (body : A -> io W unit) :
  (forall x, In x l -> snd (body x) = Ok tt) ->
  for_each l body = (flat_map (fun x => fst (body x)) l, Ok tt).
Proof.
  induction l as [|x l IH]; intros H; simpl; [reflexivity|].
  rewrite IH by (intros y Hy; apply H; now right).
  specialize (H x (or_introl eq_refl)).
  destruct (body x) as [w r]. simpl in *. now subst.
Qed.

(** ** The per-registry views of build-asn.py *)


Lemma split_cons (sep : ascii) (s : string) : exists p ps, split sep s = p :: ps.
Proof.
  induction s as [|c s (p & ps & IH)]; simpl; [eauto|].
  destruct (Ascii.eqb c sep); [eauto|]. rewrite IH. eauto.
Qed.

Lemma asn_process_line_inv (line : string) (e : BuildAsn.ASNEntry) :
  BuildAsn.process_line line = Some e ->
  let parts := split "|" (strip line) in
  line <> "" /\ startswith line "#" = false
  /\ (7 <= length parts)%nat
  /\ nth 2 parts "" = "asn"
  /\ (nth 6 parts "" = "allocated" \/ nth 6 parts "" = "assigned")
  /\ e = BuildAsn.mkASNEntry (nth 0 parts "") (nth 1 parts "") (nth 3 parts "")
                             (nth 4 parts "") (nth 5 parts "") (nth 6 parts "").
Proof.
  unfold BuildAsn.process_line. cbv zeta.
  destruct (String.eqb_spec line "") as [|Hne]; cbn [negb andb]; [discriminate|].
  destruct (startswith line "#"); cbn [negb andb]; [discriminate|].
  destruct (7 <=? length (split "|" (strip line)))%nat eqn:Hlen; cbn [andb]; [|discriminate].
  apply Nat.leb_le in Hlen.
  destruct (String.eqb_spec (nth 2 (split "|" (strip line)) "") "asn") as [Ht|];
    cbn [andb]; [|discriminate].
  destruct (String.eqb_spec (nth 6 (split "|" (strip line)) "") "allocated") as [Hs|_];
    cbn [orb].
  - intros [= <-]. auto 10.
  - destruct (String.eqb_spec (nth 6 (split "|" (strip line)) "") "assigned") as [Hs|_];
      [|discriminate].
    intros [= <-]. auto 10.
Qed.




(** ** A record of build.py does not depend on the registry field *)








(** ** What a record of build.py holds *)

Lemma digit_not_int_space (c : ascii) : isdigit_char c = true -> int_space c = false.
Proof.
  destruct c as [[] [] [] [] [] [] [] []]; vm_compute; congruence.
Qed.

Lemma lstrip_by_all (p q : ascii -> bool) (s : string) :
  (forall c, p c = true -> q c = false) -> all_chars p s = true -> lstrip_by q s = s.
Proof.
  intros Hpq. destruct s as [|c r]; simpl; [reflexivity|].
  intros H. apply andb_prop in H as [Hc _]. now rewrite (Hpq c Hc).
Qed.

Lemma rstrip_by_all (p q : ascii -> bool) (s : string) :
  (forall c, p c = true -> q c = false) -> all_chars p s = true -> rstrip_by q s = s.
Proof.
  intros Hpq. induction s as [|c r IH]; simpl; [reflexivity|].
  intros H. apply andb_prop in H as [Hc Hr]. rewrite (IH Hr).
  destruct r; [now rewrite (Hpq c Hc)|reflexivity].
Qed.

Lemma is_decimal_value (c : ascii) : is_decimal c = true -> (0 <= digit_value c <= 9)%Z.
Proof.
  unfold is_decimal, between, digit_value. generalize (code c) as k. intros k H.
  apply andb_prop in H as [H1 H2]. apply Nat.leb_le in H1. apply Nat.leb_le in H2. lia.
Qed.

Lemma int_digits_nonneg (s : string) (acc : Z) (b : bool) (n : Z) :
  (0 <= acc)%Z -> int_digits acc b s = Some n -> (0 <= n)%Z.
Proof.
  revert acc b. induction s as [|c r IH]; intros acc b Hacc; cbn [int_digits].
  - destruct b; [|discriminate]. intros [= <-]. exact Hacc.
  - destruct (is_decimal c) eqn:Hc.
    + apply IH. pose proof (is_decimal_value c Hc). lia.
    + destruct (Ascii.eqb c "_" && b); [|discriminate].
      destruct r as [|d r']; [discriminate|].
      destruct (is_decimal d); [|discriminate]. now apply IH.
Qed.

Lemma int_ok_literal (s : string) (n : Z) :
  int s = Ok n ->
  int_literal (rstrip_by int_space (lstrip_by int_space s)) = Some n
  /\ (digit_count (rstrip_by int_space (lstrip_by int_space s)) <= max_str_digits)%Z.
Proof.
  unfold int. cbv zeta.
  destruct (int_literal (rstrip_by int_space (lstrip_by int_space s))) as [m|]; [|discriminate].
  destruct (digit_count (rstrip_by int_space (lstrip_by int_space s)) <=? max_str_digits)%Z
    eqn:E; [|discriminate].
  intros [= <-]. split; [reflexivity|]. now apply Z.leb_le.
Qed.

Lemma isdigit_all (s : string) : isdigit s = true -> all_chars isdigit_char s = true.
Proof.
  destruct s; [discriminate|auto].
Qed.

(** A string of digits has no white space to take off and no sign. *)
Lemma isdigit_strip (s : string) :
  isdigit s = true -> rstrip_by int_space (lstrip_by int_space s) = s.
Proof.
  intros Hd. apply isdigit_all in Hd.
  rewrite (lstrip_by_all isdigit_char int_space _ digit_not_int_space Hd).
  apply (rstrip_by_all isdigit_char int_space _ digit_not_int_space Hd).
Qed.

Lemma isdigit_literal (s : string) :
  isdigit s = true -> int_literal s = int_digits 0 false s.
Proof.
  destruct s as [|c r]; [discriminate|]. intros Hd. apply isdigit_all in Hd.
  simpl in Hd. apply andb_prop in Hd as [Hc _]. unfold int_literal.
  destruct c as [[] [] [] [] [] [] [] []]; try discriminate Hc; reflexivity.
Qed.

Lemma int_isdigit (s : string) :
  isdigit s = true ->
  int s = match int_digits 0 false s with
          | Some n => if (digit_count s <=? max_str_digits)%Z then Ok n else Raise ValueError
          | None => Raise ValueError
          end.
Proof.
  intros Hd. unfold int. cbv zeta. now rewrite (isdigit_strip s Hd), (isdigit_literal s Hd).
Qed.

Lemma int_isdigit_nonneg (s : string) (n : Z) :
  isdigit s = true -> int s = Ok n -> (0 <= n)%Z.
Proof.
  intros Hd. rewrite (int_isdigit s Hd).
  destruct (int_digits 0 false s) as [m|] eqn:Hm; [|discriminate].
  apply int_digits_nonneg in Hm; [|lia].
  destruct (digit_count s <=? max_str_digits)%Z; [|discriminate]. now intros [= <-].
Qed.

Lemma decimal_is_digit (c : ascii) : is_decimal c = true -> isdigit_char c = true.
Proof.
  unfold isdigit_char. now intros ->.
Qed.

Lemma all_chars_impl (p q : ascii -> bool) (s : string) :
  (forall c, p c = true -> q c = true) -> all_chars p s = true -> all_chars q s = true.
Proof.
  intros Hpq. induction s as [|c r IH]; simpl; [reflexivity|].
  intros H. apply andb_prop in H as [Hc Hr]. now rewrite (Hpq c Hc), IH.
Qed.

Lemma int_digits_decimal (s : string) (acc : Z) (b : bool) :
  all_chars is_decimal s = true -> (s <> "" \/ b = true) ->
  exists n, int_digits acc b s = Some n.
Proof.
  revert acc b. induction s as [|c r IH]; intros acc b Hs Hne; cbn [int_digits].
  - destruct Hne as [Hne| ->]; [congruence|eauto].
  - simpl in Hs. apply andb_prop in Hs as [Hc Hr]. rewrite Hc.
    apply IH; [assumption|now right].
Qed.

Lemma digit_count_decimal (s : string) :
  all_chars is_decimal s = true -> digit_count s = Z.of_nat (String.length s).
Proof.
  induction s as [|c r IH]; [reflexivity|]. cbn [all_chars digit_count String.length].
  intros H. apply andb_prop in H as [Hc Hr]. rewrite Hc, (IH Hr). lia.
Qed.

Lemma decimal_isdigit (s : string) :
  all_chars is_decimal s = true -> s <> "" -> isdigit s = true.
Proof.
  intros Hs Hne. destruct s as [|c r]; [congruence|].
  exact (all_chars_impl _ _ _ decimal_is_digit Hs).
Qed.

Lemma int_decimal (s : string) :
  all_chars is_decimal s = true -> s <> "" ->
  (Z.of_nat (String.length s) <= max_str_digits)%Z -> exists n, int s = Ok n.
Proof.
  intros Hs Hne Hlen. rewrite (int_isdigit s (decimal_isdigit s Hs Hne)).
  destruct (int_digits_decimal s 0 false Hs (or_introl Hne)) as [n ->].
  rewrite (digit_count_decimal s Hs).
  exists n. now rewrite (proj2 (Z.leb_le _ _) Hlen).
Qed.

Lemma int_digits_numeral (d : Decimal.uint) (acc : Z) (b : bool) :
  d <> Decimal.Nil \/ b = true ->
  int_digits acc b (NilEmpty.string_of_uint d) = Some (horner d acc).
Proof.
  revert acc b.
  induction d as [|d IH|d IH|d IH|d IH|d IH|d IH|d IH|d IH|d IH|d IH]; intros acc b Hb;
    cbn [NilEmpty.string_of_uint horner].
  - destruct Hb as [Hb| ->]; [congruence|reflexivity].
  - cbn [int_digits]. change (is_decimal "0") with true. cbv iota.
    change (digit_value "0") with 0%Z. rewrite Z.add_0_r. apply IH. now right.
  - digit_step "1"%char 1%Z IH.
  - digit_step "2"%char 2%Z IH.
  - digit_step "3"%char 3%Z IH.
  - digit_step "4"%char 4%Z IH.
  - digit_step "5"%char 5%Z IH.
  - digit_step "6"%char 6%Z IH.
  - digit_step "7"%char 7%Z IH.
  - digit_step "8"%char 8%Z IH.
  - digit_step "9"%char 9%Z IH.
Qed.

Lemma horner_of_uint_acc (d : Decimal.uint) (acc : positive) :
  horner d (Z.pos acc) = Z.pos (Pos.of_uint_acc d acc).
Proof.
  revert acc.
  induction d as [|d IH|d IH|d IH|d IH|d IH|d IH|d IH|d IH|d IH|d IH]; intros acc;
    cbn [horner Pos.of_uint_acc]; [reflexivity|..];
    rewrite <- IH; f_equal; lia.
Qed.

Lemma horner_of_uint (d : Decimal.uint) : horner d 0 = Z.of_N (Pos.of_uint d).
Proof.
  induction d as [|d IH|d IH|d IH|d IH|d IH|d IH|d IH|d IH|d IH|d IH];
    cbn [horner Pos.of_uint]; [reflexivity|exact IH|..];
    cbn [Z.mul Z.add Z.of_N]; apply horner_of_uint_acc.
Qed.

Lemma numeral_chars (d : Decimal.uint) :
  all_chars is_decimal (NilEmpty.string_of_uint d) = true.
Proof.
  induction d; cbn [NilEmpty.string_of_uint all_chars]; [reflexivity|..]; exact IHd.
Qed.

Lemma int_digits_to_uint (p : positive) :
  int_digits 0 false (NilEmpty.string_of_uint (Pos.to_uint p)) = Some (Z.pos p).
Proof.
  rewrite int_digits_numeral by (left; apply Unsigned.to_uint_nonnil).
  now rewrite horner_of_uint, DecimalPos.Unsigned.of_to.
Qed.

Lemma string_of_to_uint (p : positive) :
  NilZero.string_of_uint (Pos.to_uint p) = NilEmpty.string_of_uint (Pos.to_uint p).
Proof.
  pose proof (Unsigned.to_uint_nonnil p) as H.
  destruct (Pos.to_uint p); [congruence|reflexivity..].
Qed.

Lemma decimal_not_int_space (s : string) :
  all_chars is_decimal s = true -> all_chars (fun c => negb (int_space c)) s = true.
Proof.
  apply all_chars_impl. intros c Hc.
  now rewrite (digit_not_int_space c (decimal_is_digit c Hc)).
Qed.

(** What [int] reads back from the text of an integer is that integer. *)
Lemma int_str_ok (p m : Z) : int (str p) = Ok m -> m = p.
Proof.
  intros H. apply int_ok_literal in H as [H _]. revert H. unfold str.
  destruct p as [|q|q]; cbn [Z.to_int NilZero.string_of_int].
  - now intros [= <-].
  - rewrite string_of_to_uint.
    pose proof (numeral_chars (Pos.to_uint q)) as Hc.
    pose proof (int_digits_to_uint q) as Hq.
    assert (Hd : isdigit (NilEmpty.string_of_uint (Pos.to_uint q)) = true).
    { apply decimal_isdigit; [exact Hc|]. intros He. rewrite He in Hq. discriminate Hq. }
    rewrite (isdigit_strip _ Hd), (isdigit_literal _ Hd), Hq. now intros [= <-].
  - rewrite string_of_to_uint.
    pose proof (numeral_chars (Pos.to_uint q)) as Hc.
    assert (Hs : all_chars (fun c => negb (int_space c))
                   (String "-" (NilEmpty.string_of_uint (Pos.to_uint q))) = true).
    { cbn [all_chars]. now rewrite (decimal_not_int_space _ Hc). }
    rewrite (lstrip_by_all (fun c => negb (int_space c)) int_space _
               (fun c Hc' => proj1 (negb_true_iff _) Hc') Hs).
    rewrite (rstrip_by_all (fun c => negb (int_space c)) int_space _
               (fun c Hc' => proj1 (negb_true_iff _) Hc') Hs).
    cbn [int_literal]. rewrite (int_digits_to_uint q). now intros [= <-].
Qed.

Lemma int_str_small (p : Z) : (0 <= p <= 32)%Z -> int (str p) = Ok p.
Proof.
  intros H. rewrite <- (Z2Nat.id p) by lia.
  assert (Hk : (Z.to_nat p <= 32)%nat) by lia.
  revert Hk. generalize (Z.to_nat p) as k. intros k.
  do 33 (destruct k as [|k]; [reflexivity|]). lia.
Qed.

Lemma str_negative (p : Z) : (p < 0)%Z -> String.prefix "-" (str p) = true.
Proof.
  destruct p as [|q|q]; [lia|lia|]. intros _. unfold str.
  cbn [Z.to_int NilZero.string_of_int].
  destruct (NilZero.string_of_uint (Pos.to_uint q)); reflexivity.
Qed.

(** The prefix length of an IPv4 count is in the range of the data model
    exactly below [2^33]. *)
Lemma int_32_minus_log2_in_range (n p : Z) :
  int_32_minus_log2 n = Ok p -> ((0 <= p <= 32)%Z <-> (n < 2 ^ 33)%Z).
Proof.
  unfold int_32_minus_log2.
  destruct (n <=? 0)%Z eqn:E0; [discriminate|]. apply Z.leb_gt in E0.
  destruct (n <=? 2 ^ 32)%Z eqn:E1; intros Hp;
    [assert (p = 32 - Z.log2_up n)%Z by congruence
    |assert (p = 32 - Z.log2 n)%Z by congruence]; subst p; clear Hp.
  - apply Z.leb_le in E1.
    pose proof (Z.log2_up_nonneg n).
    assert (Hm : (Z.log2_up n <= Z.log2_up (2 ^ 32))%Z) by (apply Z.log2_up_le_mono; lia).
    change (Z.log2_up (2 ^ 32)) with 32%Z in Hm.
    assert (2 ^ 32 < 2 ^ 33)%Z by reflexivity. lia.
  - apply Z.leb_gt in E1.
    assert (Hm : (Z.log2 (2 ^ 32) <= Z.log2 n)%Z) by (apply Z.log2_le_mono; lia).
    change (Z.log2 (2 ^ 32)) with 32%Z in Hm.
    pose proof (Z.log2_lt_pow2 n 33 E0) as Hl. lia.
Qed.

Lemma int_32_minus_log2_value (n p : Z) :
  int_32_minus_log2 n = Ok p ->
  ((n <= 2 ^ 32)%Z -> p = (32 - Z.log2_up n)%Z)
  /\ ((2 ^ 32 < n)%Z -> p = (32 - Z.log2 n)%Z).
Proof.
  unfold int_32_minus_log2.
  destruct (n <=? 0)%Z eqn:E0; [discriminate|].
  destruct (n <=? 2 ^ 32)%Z eqn:E1; intros Hp;
    [assert (p = 32 - Z.log2_up n)%Z by congruence
    |assert (p = 32 - Z.log2 n)%Z by congruence]; subst p; clear Hp.
  - apply Z.leb_le in E1. split; [reflexivity|lia].
  - apply Z.leb_gt in E1. split; [lia|reflexivity].
Qed.

Lemma int_32_minus_log2_ok (n : Z) : (1 <= n)%Z -> exists p, int_32_minus_log2 n = Ok p.
Proof.
  intros H. unfold int_32_minus_log2.
  destruct (n <=? 0)%Z eqn:E0; [apply Z.leb_le in E0; lia|].
  destruct (n <=? 2 ^ 32)%Z; eauto.
Qed.

(** C6, as the code has it: no line is rejected for its address or its
    range: every line that passes the tests of C1 gives a record when its
    type is ipv6, and when its type is ipv4 and its count is at least one.
    The address of the record is the fourth field as it stands.  An IPv4
    record of the count [n] has the prefix length [int(32 - log2 n)]: that
    is [32] less the logarithm rounded up for [n <= 2^32] and rounded down
    for [2^32 < n < 2^48]; it is negative from [2^33] on, and in [0, 32]
    exactly when [n < 2^33].
    An IPv6 record has the value field as its prefix length, a string of
    digits, in [0, 128] exactly when [int] reads it as at most 128. *)
Theorem record_as_built (line : string) :
  let parts := split "|" (strip line) in
  let value := nth 4 parts "" in
  (mentions_status line = true -> (5 <= length parts)%nat -> isdigit value = true ->
   (nth 2 parts "" = "ipv4" ->
    forall n : Z, int value = Ok n -> (1 <= n)%Z ->
      exists pkg, Build.process_line line = Ok (Some pkg))
   /\ (nth 2 parts "" = "ipv6" -> exists pkg, Build.process_line line = Ok (Some pkg)))
  /\ (forall pkg : Build.IPPackage,
        Build.process_line line = Ok (Some pkg) ->
        Build.ip pkg = nth 3 parts ""
        /\ ((Build.version pkg = "ipv4"
             /\ exists n : Z,
                 int value = Ok n /\ (1 <= n)%Z
                 /\ ((n <= 2 ^ 32)%Z ->
                     Build.prefix_length pkg = str (32 - Z.log2_up n))
                 /\ ((2 ^ 32 < n < 2 ^ 48)%Z ->
                     Build.prefix_length pkg = str (32 - Z.log2 n))
                 /\ ((2 ^ 33 <= n)%Z ->
                     String.prefix "-" (Build.prefix_length pkg) = true)
                 /\ (prefix_in_range pkg <-> (n < 2 ^ 33)%Z))
            \/ (Build.version pkg = "ipv6"
                /\ Build.prefix_length pkg = value
                /\ isdigit value = true
                /\ (prefix_in_range pkg
                    <-> exists n : Z, int value = Ok n /\ (n <= 128)%Z)))).
Proof.
  cbv zeta. split.
  - unfold mentions_status, Build.process_line. cbv zeta. intros Hs Hlen Hd.
    rewrite Hs, (proj2 (Nat.leb_le _ _) Hlen). split.
    + intros H4 n Hn H1. rewrite H4, String.eqb_refl, Hd. cbn [andb].
      rewrite Hn. cbn [bind]. destruct (int_32_minus_log2_ok n H1) as [p ->].
      cbn [bind]. eauto.
    + intros H6. rewrite H6, String.eqb_refl, Hd.
      change (String.eqb "ipv6" "ipv4") with false. cbn [andb]. eauto.
  - intros pkg Hacc.
    destruct (build_process_line_inv _ _ Hacc) as (_ & _ & _ & Hip & _ & Hd & Hcase).
    cbv zeta in Hip, Hd, Hcase. split; [exact Hip|].
    destruct Hcase as [(Hv & n & p & Hn & Hp & Hpl)|(Hv & Hpl)]; [left|right].
    + split; [exact Hv|]. exists n.
      destruct (int_32_minus_log2_range n p Hp) as (H1 & _ & _).
      destruct (int_32_minus_log2_value n p Hp) as (Hlow & Hhigh).
      split; [exact Hn|]. split; [exact H1|].
      split; [intros Hle; now rewrite Hpl, (Hlow Hle)|].
      split; [intros [Hgt _]; now rewrite Hpl, (Hhigh Hgt)|].
      split.
      { intros Hge. rewrite Hpl. apply str_negative.
        destruct (int_32_minus_log2_range n p Hp) as (_ & _ & Hbig).
        pose proof (int_32_minus_log2_in_range n p Hp) as Hin.
        assert (2 ^ 32 < 2 ^ 33)%Z by reflexivity. lia. }
      rewrite <- (int_32_minus_log2_in_range n p Hp). unfold prefix_in_range.
      rewrite Hpl, Hv. split.
      * intros (m & Hm & H0 & H32 & _). apply int_str_ok in Hm. subst m.
        split; [exact H0|now apply H32].
      * intros Hr. exists p. rewrite (int_str_small p Hr).
        split; [reflexivity|]. split; [lia|]. split; [lia|discriminate].
    + split; [exact Hv|]. split; [exact Hpl|]. split; [exact Hd|].
      unfold prefix_in_range. rewrite Hpl, Hv. split.
      * intros (m & Hm & _ & _ & H128). exists m. split; [exact Hm|now apply H128].
      * intros (m & Hm & H128). exists m. split; [exact Hm|].
        split; [exact (int_isdigit_nonneg _ _ Hd Hm)|]. split; [discriminate|auto].
Qed.

Lemma record_as_built_example :
  prefix_in_range (Build.mkIPPackage "JP" "103.0.0.0" "23" "ipv4")
  /\ exists pkg,
       Build.process_line "apnic|JP|ipv6|not-an-address|129|20120101|allocated"
       = Ok (Some pkg).
Proof.
  split.
  - destruct (proj2 (record_as_built "apnic|JP|ipv4|103.0.0.0|257|20120101|allocated")
                    (Build.mkIPPackage "JP" "103.0.0.0" "23" "ipv4") eq_refl)
      as [_ [(_ & n & Hn & _ & _ & _ & _ & Hr)|(Hv & _)]].
    + injection Hn as <-. apply Hr. reflexivity.
    + discriminate Hv.
  - refine (proj2 (proj1 (record_as_built
                            "apnic|JP|ipv6|not-an-address|129|20120101|allocated")
                         eq_refl _ eq_refl)
                  eq_refl).
    vm_compute. repeat constructor.
Defined.

(** C6 fails as stated: a prefix length above 128, a negative one, and an
    address that is no IPv4 address are all admitted. *)
Lemma invariant_not_enforced :
  (exists pkg, Build.process_line "apnic|JP|ipv6|2001:db8::|129|20120101|allocated" = Ok (Some pkg)
               /\ Build.prefix_length pkg = "129" /\ ~ prefix_in_range pkg)
  /\ (exists pkg, Build.process_line "apnic|JP|ipv4|1.0.0.0|8589934592|20120101|allocated"
                  = Ok (Some pkg)
                  /\ Build.prefix_length pkg = "-1" /\ ~ prefix_in_range pkg)
  /\ (exists pkg, Build.process_line "apnic|JP|ipv4|300.1.2|256|20120101|allocated" = Ok (Some pkg)
                  /\ Build.ip pkg = "300.1.2" /\ ipv4_address_int (Build.ip pkg) = None).
Proof.
  split; [|split]; eexists; (split; [reflexivity|]); (split; [reflexivity|]).
  - intros (n & Hn & _ & _ & H6). injection Hn as <-.
    specialize (H6 eq_refl). lia.
  - intros (n & Hn & H0 & _). injection Hn as <-. lia.
  - reflexivity.
Qed.

(** ** Where build.py and build-asn.py part ways *)

Lemma asn_comment_line (line : string) :
  startswith line "#" = true -> BuildAsn.process_line line = None.
Proof.
  unfold BuildAsn.process_line. intros ->.
  now rewrite andb_false_r.
Qed.

Lemma export_by_country_rows (all rows : list BuildAsn.ASNEntry) (path : string) :
  In (BuildAsn.Rows path rows) (fst (BuildAsn.export_by_country all)) ->
  Forall (fun e => BuildAsn.country e <> "" /\ BuildAsn.country e <> "*") rows.
Proof.
  unfold BuildAsn.export_by_country. cbv zeta. intros H.
  apply In_for_each in H as ([c es] & Hin & H).
  destruct (String.eqb_spec c "") as [|Hc1]; cbn [negb andb] in H; [destruct H|].
  destruct (String.eqb_spec c "*") as [|Hc2]; cbn [negb andb] in H; [destruct H|].
  apply In_io_bind in H as [[]|(s & Hs & H)]. cbn [lift snd] in Hs.
  assert (rows = s) as ->.
  { simpl in H. destruct H as [H|[H|[H|[]]]]; congruence. }
  destruct (group_by_keyed BuildAsn.country all c es Hin) as [_ Hf].
  rewrite Forall_forall in *. intros e He.
  apply (Permutation_in e (sorted_by_asn_perm es s Hs)) in He.
  rewrite (Hf e He). now split.
Qed.

(** C3 at work: build-asn.py keeps a line only when its status field is
    'allocated' or 'assigned'; build.py looks for the two words anywhere in
    the line, so a line whose status is 'unassigned', or 'reserved' with
    the word in a later field, gives a record. *)
Theorem status_gate :
  (forall (line : string) (e : BuildAsn.ASNEntry),
      BuildAsn.process_line line = Some e ->
      BuildAsn.status e = nth 6 (split "|" (strip line)) ""
      /\ (BuildAsn.status e = "allocated" \/ BuildAsn.status e = "assigned"))
  /\ nth 6 (split "|" (strip "apnic|JP|ipv4|103.0.0.0|256|20120101|unassigned")) "" = "unassigned"
  /\ Build.process_line "apnic|JP|ipv4|103.0.0.0|256|20120101|unassigned"
     = Ok (Some (Build.mkIPPackage "JP" "103.0.0.0" "24" "ipv4"))
  /\ Build.process_line "arin|US|ipv4|192.0.2.0|256|20120101|reserved|allocated-pool"
     = Ok (Some (Build.mkIPPackage "US" "192.0.2.0" "24" "ipv4")).
Proof.
  split; [|repeat split].
  intros line e H. apply asn_process_line_inv in H as (_ & _ & _ & _ & Hs & ->).
  split; [reflexivity|exact Hs].
Qed.

(** C7 at work: build-asn.py drops every line that starts with '#';
    build.py has no such test, and a '#' line that passes its other tests
    gives a record. *)
Theorem comment_lines :
  (forall line : string, startswith line "#" = true -> BuildAsn.process_line line = None)
  /\ startswith "#apnic|JP|ipv4|103.0.0.0|256|20120101|allocated" "#" = true
  /\ Build.process_line "#apnic|JP|ipv4|103.0.0.0|256|20120101|allocated"
     = Ok (Some (Build.mkIPPackage "JP" "103.0.0.0" "24" "ipv4")).
Proof.
  split; [exact asn_comment_line|]. split; reflexivity.
Qed.

(** C4 at work: build-asn.py writes no per-country file with an entry of
    the empty or the wildcard country; build.py groups by country with no
    such test and writes the files of the country '*'. *)
Theorem wildcard_country_views :
  (forall (all rows : list BuildAsn.ASNEntry) (path : string),
      In (BuildAsn.Rows path rows) (fst (BuildAsn.export_by_country all)) ->
      Forall (fun e => BuildAsn.country e <> "" /\ BuildAsn.country e <> "*") rows)
  /\ (forall IPv4Address IPv6Address : string -> option Z,
         Build.main IPv4Address IPv6Address
           (only_source "delegated-ripencc-latest"
              ("ripencc|*|ipv4|80.0.0.0|65536|20000101|allocated" ++ nl))
         = (let rows := Build.Rows [Build.mkIPPackage "*" "80.0.0.0" "16" "ipv4"] in
            [("CSV/countries.csv", Build.Countries ["*"]);
             ("JSON/countries.json", Build.Countries ["*"]);
             ("TXT/countries.txt", Build.Countries ["*"]);
             ("CSV/global.csv", rows);
             ("JSON/global.json", rows);
             ("JSON/global_compressed.json", rows);
             ("CSV/global_ipv4.csv", rows);
             ("JSON/global_ipv4.json", rows);
             ("JSON/global_ipv4_compressed.json", rows);
             ("CSV/global_ipv6.csv", Build.Rows []);
             ("JSON/global_ipv6.json", Build.Rows []);
             ("JSON/global_ipv6_compressed.json", Build.Rows []);
             ("CSV/IPV4/*.csv", rows);
             ("JSON/IPV4/*.json", rows);
             ("TXT/IPV4/*.txt", rows)], Ok tt)).
Proof.
  split; [exact export_by_country_rows|]. intros p4 p6. reflexivity.
Qed.

(** C9 at work: with nothing collected build-asn.py prints its message
    and writes no file, and with something collected it goes on to the
    exports; build.py has no such test and writes its twelve global files,
    all empty, when no source could be read. *)
Theorem empty_run :
  (forall completed : list (string * option string),
      flat_map (fun '(registry_name, response) =>
                  BuildAsn.download_and_process_asn registry_name response) completed = [] ->
      BuildAsn.main completed = ([BuildAsn.Print "No ASN data collected. Exiting."], Ok tt))
  /\ (forall completed : list (string * option string),
         let all_asn_data :=
           flat_map (fun '(registry_name, response) =>
                       BuildAsn.download_and_process_asn registry_name response) completed in
         all_asn_data <> [] ->
         BuildAsn.main completed
         = (BuildAsn.export_global_asn_data all_asn_data ;;;
            BuildAsn.export_by_country all_asn_data ;;;
            BuildAsn.export_by_registry all_asn_data ;;;
            BuildAsn.export_summary all_asn_data))
  /\ (forall IPv4Address IPv6Address : string -> option Z,
         Build.collect no_sources = []
         /\ Build.main IPv4Address IPv6Address no_sources
            = ([("CSV/countries.csv", Build.Countries []);
                ("JSON/countries.json", Build.Countries []);
                ("TXT/countries.txt", Build.Countries []);
                ("CSV/global.csv", Build.Rows []);
                ("JSON/global.json", Build.Rows []);
                ("JSON/global_compressed.json", Build.Rows []);
                ("CSV/global_ipv4.csv", Build.Rows []);
                ("JSON/global_ipv4.json", Build.Rows []);
                ("JSON/global_ipv4_compressed.json", Build.Rows []);
                ("CSV/global_ipv6.csv", Build.Rows []);
                ("JSON/global_ipv6.json", Build.Rows []);
                ("JSON/global_ipv6_compressed.json", Build.Rows [])], Ok tt)).
Proof.
  split; [|split].
  - intros completed H. unfold BuildAsn.main. cbv zeta. now rewrite H.
  - intros completed all H. unfold BuildAsn.main. cbv zeta. fold all.
    destruct all; [congruence|reflexivity].
  - intros p4 p6. split; reflexivity.
Qed.

(** C5 at work: a line with three fields is passed over, but an IPv4 line
    with the count 0 makes [math.log2] raise: the exception leaves
    [process_region_data], [main] catches it and the source gives no
    record at all, its well-formed line included.  In build-asn.py an AS
    number that [int] cannot read makes the sort raise, and the run ends
    with nothing written. *)
Theorem bad_line_aborts_source :
  Build.process_region_data
    (only_source "delegated-apnic-latest" ("apnic|JP|ipv4|103.0.0.0|256|20120101|allocated" ++ nl ++ "a|b|c" ++ nl))
    "delegated-apnic-latest"
  = Ok [Build.mkIPPackage "JP" "103.0.0.0" "24" "ipv4"]
  /\ BuildAsn.process_asn_data "apnic"
       ("apnic|JP|asn|173|1|20020801|allocated" ++ nl ++ "a|b|c" ++ nl)
     = [BuildAsn.mkASNEntry "apnic" "JP" "173" "1" "20020801" "allocated"]
  /\ Build.process_region_data
       (only_source "delegated-apnic-latest" ("apnic|JP|ipv4|103.0.0.0|0|20120101|allocated" ++ nl
                    ++ "apnic|JP|ipv4|103.0.1.0|256|20120101|allocated" ++ nl))
       "delegated-apnic-latest"
     = Raise ValueError
  /\ Build.collect
       (only_source "delegated-apnic-latest" ("apnic|JP|ipv4|103.0.0.0|0|20120101|allocated" ++ nl
                    ++ "apnic|JP|ipv4|103.0.1.0|256|20120101|allocated" ++ nl))
     = []
  /\ BuildAsn.main
       [("apnic", Some ("apnic|JP|asn|AS173|1|20020801|allocated" ++ nl
                        ++ "apnic|JP|asn|174|1|20020801|allocated" ++ nl))]
     = ([], Raise ValueError).
Proof.
  repeat split.
Qed.

(** * Further properties of the code

    [write] records a file and does not fail.  Where a statement speaks of
    the files that a run writes, it asks that the country codes and the
    registry names that the paths are made of can stand in a file name
    ([plain_name]), so that each path names a file in a directory that the
    script has made; the paths of the files of the groups are shown to
    differ from one another.  What the file system can do beyond that (a
    full disk, a missing permission) is outside the model. *)

(** ** When a line of build.py raises *)








(** ** The loop over the lines of a source *)

Lemma process_lines_ok (lines : list string) (acc : list Build.IPPackage) :
  Forall (fun line => exists r, Build.process_line line = Ok r) lines ->
  Build.process_lines lines acc = Ok (acc ++ flat_map records_of_line lines)%list.
Proof.
  revert acc. induction lines as [|line rest IH]; intros acc H; simpl.
  - now rewrite app_nil_r.
  - inversion H as [|? ? [r Hr] Hrest]; subst. unfold records_of_line at 1.
    rewrite Hr. cbn [bind]. destruct r as [pkg|].
    + rewrite (IH _ Hrest), <- app_assoc. reflexivity.
    + now rewrite (IH _ Hrest).
Qed.

Lemma process_lines_inv (lines : list string) (acc out : list Build.IPPackage) :
  Build.process_lines lines acc = Ok out ->
  Forall (fun line => exists r, Build.process_line line = Ok r) lines.
Proof.
  revert acc. induction lines as [|line rest IH]; intros acc; simpl; [constructor|].
  destruct (Build.process_line line) as [r|e] eqn:Hr; cbn [bind]; [|discriminate].
  intros H. constructor; [now exists r|].
  destruct r; eapply IH; eassumption.
Qed.

Lemma records_of_line_length (lines : list string) :
  (length (flat_map records_of_line lines) <= length lines)%nat.
Proof.
  induction lines as [|line rest IH]; simpl; [lia|].
  rewrite length_app. unfold records_of_line at 1.
  destruct (Build.process_line line) as [[pkg|]|e]; simpl; lia.
Qed.

(** X2: [process_region_data] gives a list exactly when the file exists
    and no line of it raises; the list then holds the records of the
    accepted lines in the order of the file, at most one for each line. *)
Theorem process_region_data_records (fs : string -> option string) (region_name : string)
    (out : list Build.IPPackage) :
  Build.process_region_data fs region_name = Ok out
  <-> exists text : string,
        fs ("IANASources/" ++ region_name ++ ".txt") = Some text
        /\ Forall (fun line => exists r, Build.process_line line = Ok r) (readlines text)
        /\ out = flat_map records_of_line (readlines text)
        /\ (length out <= length (readlines text))%nat.
Proof.
  unfold Build.process_region_data.
  destruct (fs ("IANASources/" ++ region_name ++ ".txt")) as [text|]; split.
  - intros H. exists text. split; [reflexivity|].
    pose proof (process_lines_inv _ _ _ H) as Hall.
    rewrite (process_lines_ok _ [] Hall) in H. injection H as <-.
    repeat split; [assumption|apply records_of_line_length].
  - intros (text' & [= <-] & Hall & -> & _). now rewrite (process_lines_ok _ [] Hall).
  - discriminate.
  - intros (text & H & _). discriminate.
Qed.

(** ** [main] of build.py never raises *)

Lemma io_bind_ok {W A B : Type} (m : io W A) (k : A -> io W B) (a : A) (b : B) :
  snd m = Ok a -> snd (k a) = Ok b -> snd (io_bind m k) = Ok b.
Proof.
  destruct m as [w r]. simpl. intros -> H. destruct (k a). exact H.
Qed.

Lemma record_known_version (line : string) (pkg : Build.IPPackage) :
  Build.process_line line = Ok (Some pkg) -> known_version pkg.
Proof.
  intros H. destruct (build_process_line_inv _ _ H) as (_ & _ & _ & _ & _ & _ & Hc).
  destruct Hc as [(Hv & _)|(Hv & _)]; [now left|now right].
Qed.

Lemma records_of_line_known (lines : list string) :
  Forall known_version (flat_map records_of_line lines).
Proof.
  apply Forall_forall. intros pkg H. apply in_flat_map in H as (line & _ & H).
  unfold records_of_line in H.
  destruct (Build.process_line line) as [[p|]|e] eqn:E; [|contradiction|contradiction].
  destruct H as [<-|[]]. exact (record_known_version line p E).
Qed.

Lemma process_region_data_out (fs : string -> option string) (region : string)
    (out : list Build.IPPackage) :
  Build.process_region_data fs region = Ok out ->
  exists text, out = flat_map records_of_line (readlines text).
Proof.
  unfold Build.process_region_data.
  destruct (fs ("IANASources/" ++ region ++ ".txt")) as [text|]; [|discriminate].
  intros H. exists text. pose proof (process_lines_inv _ _ _ H) as Hall.
  rewrite (process_lines_ok _ [] Hall) in H. now injection H as <-.
Qed.

Lemma collect_known (fs : string -> option string) : Forall known_version (Build.collect fs).
Proof.
  apply Forall_forall. intros pkg H. unfold Build.collect in H.
  apply in_flat_map in H as (region & _ & H).
  destruct (Build.process_region_data fs region) as [out|e] eqn:E; [|destruct H].
  apply process_region_data_out in E as [text ->].
  pose proof (records_of_line_known (readlines text)) as Hk.
  rewrite Forall_forall in Hk. now apply Hk.
Qed.


Lemma write_group_ok (c v : string) (packages : list Build.IPPackage) :
  snd (Build.write_group c v packages) = Ok tt.
Proof.
  destruct packages; reflexivity.
Qed.




(** ** The sort of build.py *)

Lemma tuple3_ltb_asym (k1 k2 : string * string * Z) :
  tuple3_ltb k1 k2 = true -> tuple3_ltb k2 k1 = false.
Proof.
  destruct k1 as [[c1 v1] n1], k2 as [[c2 v2] n2]. simpl.
  rewrite (String.eqb_sym c2 c1), (String.eqb_sym v2 v1).
  destruct (String.eqb c1 c2); [|apply str_lt_asym].
  destruct (String.eqb v1 v2); [|apply str_lt_asym].
  intros H. apply Z.ltb_lt in H. apply Z.ltb_ge. lia.
Qed.

Lemma sorted_of_Sorted {A : Type} (ltb : A -> A -> bool) (l : list A) :
  Sorted (fun a b => ltb b a = false) l -> sorted ltb l = l.
Proof.
  induction 1 as [|x l Hs IH Hd]; [reflexivity|].
  cbn [sorted fold_right]. fold (sorted ltb l). rewrite IH.
  destruct Hd as [|y l' Hxy]; simpl; [reflexivity|]. now rewrite Hxy.
Qed.

Lemma sorted_idempotent {A : Type} (ltb : A -> A -> bool) (l : list A) :
  (forall a b, ltb a b = true -> ltb b a = false) ->
  sorted ltb (sorted ltb l) = sorted ltb l.
Proof.
  intros Hasym. apply sorted_of_Sorted.
  apply sorted_Sorted with (le := fun a b => ltb b a = false); auto.
Qed.

(** X4: [sort_ip_data] only reorders: its output holds every record of
    the input as often as the input does, so no record is lost or added. *)
Theorem sort_ip_data_keeps_records
    (IPv4Address IPv6Address : string -> option Z) (ip_data : list Build.IPPackage) :
  Permutation (Build.sort_ip_data IPv4Address IPv6Address ip_data) ip_data
  /\ length (Build.sort_ip_data IPv4Address IPv6Address ip_data) = length ip_data.
Proof.
  assert (H : Permutation (Build.sort_ip_data IPv4Address IPv6Address ip_data) ip_data)
    by apply sorted_perm.
  split; [exact H|apply Permutation_length, H].
Qed.

(** X5: sorting sorted data changes nothing: [sort_ip_data] applied to
    its own output returns it as it is. *)
Theorem sort_ip_data_idempotent
    (IPv4Address IPv6Address : string -> option Z) (ip_data : list Build.IPPackage) :
  Build.sort_ip_data IPv4Address IPv6Address
    (Build.sort_ip_data IPv4Address IPv6Address ip_data)
  = Build.sort_ip_data IPv4Address IPv6Address ip_data.
Proof.
  apply sorted_idempotent. intros a b. apply tuple3_ltb_asym.
Qed.

(** ** The statistics that [main] of build.py prints *)

Lemma version_count_length (l : list Build.IPPackage) (v : string) :
  Build.version_count l v = length (Build.version_view l v).
Proof.
  unfold Build.version_count, Build.version_view.
  induction l as [|x l IH]; simpl; [reflexivity|].
  destruct (String.eqb (Build.version x) v); simpl; now rewrite IH.
Qed.

Lemma version_count_known (l : list Build.IPPackage) :
  Forall known_version l ->
  (Build.version_count l "ipv4" + Build.version_count l "ipv6" = length l)%nat.
Proof.
  unfold Build.version_count.
  induction 1 as [|x l Hx Hl IH]; simpl; [reflexivity|].
  destruct Hx as [Hx|Hx]; rewrite Hx; simpl; lia.
Qed.

(** X6: the statistics at the end of [main] agree with the files: the
    count of IPv4 blocks and the count of IPv6 blocks are the lengths of
    the two per-family files and add up to the length of the global file,
    which is the number of records collected; the count of countries is
    the length of the list of countries. *)
Theorem build_summary_counts
    (IPv4Address IPv6Address : string -> option Z) (fs : string -> option string) :
  let sorted_data := Build.sort_ip_data IPv4Address IPv6Address (Build.collect fs) in
  Build.version_count sorted_data "ipv4" = length (Build.version_view sorted_data "ipv4")
  /\ Build.version_count sorted_data "ipv6" = length (Build.version_view sorted_data "ipv6")
  /\ (Build.version_count sorted_data "ipv4" + Build.version_count sorted_data "ipv6"
      = length sorted_data)%nat
  /\ length sorted_data = length (Build.collect fs)
  /\ Build.countries_count sorted_data = length (Build.countries_of sorted_data).
Proof.
  cbv zeta.
  pose proof (sorted_perm (fun a b => tuple3_ltb (Build.ip_sort_key IPv4Address IPv6Address a)
                                                 (Build.ip_sort_key IPv4Address IPv6Address b))
                          (Build.collect fs)) as Hp.
  fold (Build.sort_ip_data IPv4Address IPv6Address (Build.collect fs)) in Hp.
  split; [apply version_count_length|]. split; [apply version_count_length|].
  split; [|split].
  - apply version_count_known. apply Forall_forall. intros pkg H.
    apply (Permutation_in pkg Hp) in H.
    pose proof (collect_known fs) as Hk. rewrite Forall_forall in Hk. now apply Hk.
  - apply Permutation_length, Hp.
  - unfold Build.countries_count, Build.countries_of.
    symmetry. apply Permutation_length, sorted_perm.
Qed.

(** ** Dictionaries *)

Lemma lookup_update {V : Type} (dflt : V) (f : V -> V) (k c : string) (d : dict V) :
  lookup c (update dflt f k d)
  = if String.eqb k c
    then Some (f (match lookup k d with Some v => v | None => dflt end))
    else lookup c d.
Proof.
  induction d as [|[k' v] d IH]; simpl.
  - reflexivity.
  - destruct (String.eqb_spec k' k) as [->|Hk]; simpl.
    + destruct (String.eqb_spec k c) as [->|Hc]; reflexivity.
    + rewrite IH. destruct (String.eqb_spec k' c) as [->|Hc]; [|reflexivity].
      destruct (String.eqb_spec k c) as [->|_]; [congruence|reflexivity].
Qed.

Lemma In_keys_update {V : Type} (dflt : V) (f : V -> V) (k c : string) (d : dict V) :
  In c (map fst (update dflt f k d)) <-> c = k \/ In c (map fst d).
Proof.
  induction d as [|[k' v] d IH]; simpl.
  - intuition.
  - destruct (String.eqb_spec k' k) as [->|Hk]; simpl; [intuition|].
    rewrite IH. intuition.
Qed.

Lemma NoDup_update {V : Type} (dflt : V) (f : V -> V) (k : string) (d : dict V) :
  NoDup (map fst d) -> NoDup (map fst (update dflt f k d)).
Proof.
  induction d as [|[k' v] d IH]; simpl; intros H.
  - repeat constructor. intros [].
  - inversion H; subst.
    destruct (String.eqb_spec k' k) as [->|Hk]; simpl; [now constructor|].
    constructor; [|auto]. rewrite In_keys_update. intros [->|Hin]; [congruence|auto].
Qed.

Lemma In_lookup {V : Type} (c : string) (v : V) (d : dict V) :
  NoDup (map fst d) -> In (c, v) d -> lookup c d = Some v.
Proof.
  induction d as [|[k' v'] d IH]; simpl; intros Hn; [contradiction|].
  inversion Hn; subst. intros [[= -> ->]|Hin].
  - now rewrite String.eqb_refl.
  - destruct (String.eqb_spec k' c) as [->|_]; [|auto].
    exfalso. match goal with H : ~ In _ _ |- _ => apply H end.
    apply in_map_iff. now exists (c, v).
Qed.

Lemma lookup_In {V : Type} (c : string) (v : V) (d : dict V) :
  lookup c d = Some v -> In (c, v) d.
Proof.
  induction d as [|[k' v'] d IH]; simpl; [discriminate|].
  destruct (String.eqb_spec k' c) as [->|_]; [intros [= ->]; now left|auto].
Qed.

(** ** Paths *)








(** ** The per-country files of build.py *)

Lemma country_family_app (c v : string) (l1 l2 : list Build.IPPackage) :
  country_family c v (l1 ++ l2) = (country_family c v l1 ++ country_family c v l2)%list.
Proof.
  apply filter_app.
Qed.

Lemma country_family_none (c v : string) (l : list Build.IPPackage) :
  existsb (fun pkg => String.eqb (Build.country pkg) c) l = false -> country_family c v l = [].
Proof.
  induction l as [|x l IH]; simpl; [reflexivity|].
  intros H. apply orb_false_elim in H as [Hx Hl]. rewrite Hx. simpl. auto.
Qed.

Lemma group_step_grouped (pre : list Build.IPPackage) (x : Build.IPPackage)
    (d : dict Build.versions) :
  known_version x -> grouped pre d ->
  exists d', Build.group_step (Ok d) x = Ok d' /\ grouped (pre ++ [x]) d'.
Proof.
  intros Hx [Hn Hl]. unfold Build.group_step. cbn [bind].
  assert (Hstep : forall c v (w : list Build.IPPackage),
             country_family c v (pre ++ [x])
             = (country_family c v pre
                ++ (if String.eqb (Build.country x) c && String.eqb (Build.version x) v
                    then [x] else []))%list).
  { intros c v w. rewrite country_family_app. reflexivity. }
  destruct Hx as [Hx|Hx]; rewrite Hx; simpl String.eqb; cbv iota;
    eexists; (split; [reflexivity|]); (split; [now apply NoDup_update|]);
    intros c; rewrite lookup_update, existsb_app, !(Hstep c _ []), Hx; simpl existsb;
    rewrite orb_false_r; specialize (Hl (Build.country x)) as Hlx; specialize (Hl c);
    destruct (String.eqb_spec (Build.country x) c) as [<-|Hc]; simpl;
    try (rewrite orb_false_r, !app_nil_r; exact Hl);
    rewrite orb_true_r, Hlx;
    destruct (existsb (fun pkg => String.eqb (Build.country pkg) (Build.country x)) pre) eqn:E;
    simpl; rewrite ?app_nil_r; try reflexivity;
    rewrite !(country_family_none _ _ _ E); reflexivity.
Qed.

Lemma fold_group_step_grouped (l pre : list Build.IPPackage) (d : dict Build.versions) :
  Forall known_version l -> grouped pre d ->
  exists d', fold_left Build.group_step l (Ok d) = Ok d' /\ grouped (pre ++ l) d'.
Proof.
  revert pre d. induction l as [|x l IH]; intros pre d Hk Hg; cbn [fold_left].
  - exists d. now rewrite app_nil_r.
  - inversion Hk as [|? ? Hx Hl]; subst.
    destruct (group_step_grouped pre x d Hx Hg) as (d1 & -> & Hg1).
    destruct (IH (pre ++ [x])%list d1 Hl Hg1) as (d' & Hd' & Hg').
    exists d'. split; [exact Hd'|]. now rewrite <- app_assoc in Hg'.
Qed.

Lemma group_by_country_grouped (l : list Build.IPPackage) :
  Forall known_version l -> exists d, Build.group_by_country l = Ok d /\ grouped l d.
Proof.
  intros Hk. apply (fold_group_step_grouped l [] [] Hk).
  split; [constructor|]. reflexivity.
Qed.



Lemma export_country_data_files (l : list Build.IPPackage) (d : dict Build.versions) :
  Build.group_by_country l = Ok d ->
  fst (Build.export_country_data l)
  = flat_map (fun cv => fst (Build.write_group (fst cv) "ipv4" (fst (snd cv)) ;;;
                              Build.write_group (fst cv) "ipv6" (snd (snd cv)))) d.
Proof.
  intros Hd. unfold Build.export_country_data. rewrite Hd.
  unfold lift, io_bind at 1. rewrite for_each_ok.
  - simpl. apply flat_map_ext. now intros [c vs].
  - intros [c vs] _. apply (io_bind_ok _ _ tt); apply write_group_ok.
Qed.


Lemma grouped_entry (l : list Build.IPPackage) (d : dict Build.versions)
    (c : string) (vs : Build.versions) :
  grouped l d -> In (c, vs) d ->
  vs = (country_family c "ipv4" l, country_family c "ipv6" l).
Proof.
  intros [Hn Hl] Hin. pose proof (In_lookup c vs d Hn Hin) as H.
  rewrite Hl in H.
  destruct (existsb (fun pkg => String.eqb (Build.country pkg) c) l); congruence.
Qed.













(** ** The groups of build-asn.py *)

Lemma perm_filter {A : Type} (p : A -> bool) (l l' : list A) :
  Permutation l l' -> Permutation (filter p l) (filter p l').
Proof.
  induction 1 as [|x l l' H IH|x y l|l l' l'' H1 IH1 H2 IH2]; simpl.
  - constructor.
  - destruct (p x); [now constructor|assumption].
  - destruct (p x), (p y); try reflexivity. apply perm_swap.
  - now transitivity (filter p l').
Qed.

Lemma group_by_grouped (key : BuildAsn.ASNEntry -> string) (l : list BuildAsn.ASNEntry) :
  grouped_by key l (BuildAsn.group_by key l).
Proof.
  unfold BuildAsn.group_by.
  assert (H : forall l pre d, grouped_by key pre d ->
            grouped_by key (pre ++ l)
              (fold_left (fun d entry => update [] (fun es => (es ++ [entry])%list) (key entry) d)
                         l d)).
  { clear l. induction l as [|e l IH]; intros pre d Hg; cbn [fold_left].
    - now rewrite app_nil_r.
    - replace (pre ++ e :: l)%list with ((pre ++ [e]) ++ l)%list
        by (rewrite <- app_assoc; reflexivity).
      apply IH. destruct Hg as [Hn Hl]. split; [now apply NoDup_update|].
      intros k. rewrite lookup_update. unfold with_key in *. rewrite filter_app. simpl.
      destruct (String.eqb_spec (key e) k) as [<-|Hk].
      + rewrite (Hl (key e)).
        destruct (filter (fun e0 => String.eqb (key e0) (key e)) pre); reflexivity.
      + rewrite app_nil_r. apply Hl. }
  apply (H l [] []). split; [constructor|reflexivity].
Qed.

Lemma group_by_entry (key : BuildAsn.ASNEntry -> string) (l es : list BuildAsn.ASNEntry)
    (k : string) :
  In (k, es) (BuildAsn.group_by key l) -> es = with_key key k l /\ es <> [].
Proof.
  intros Hin. destruct (group_by_grouped key l) as [Hn Hl].
  pose proof (In_lookup k es _ Hn Hin) as H. rewrite Hl in H.
  destruct (with_key key k l) as [|x r]; [discriminate|].
  injection H as <-. now split.
Qed.






(** ** [main] of build-asn.py writes all its files or none *)





(** ** A stable sort and a filter can change places *)

Section SortedFilter.
Context {A : Type} (ltb : A -> A -> bool).
Hypothesis ltb_asym : forall a b, ltb a b = true -> ltb b a = false.
Hypothesis ltb_ntrans : forall a b c, ltb a b = false -> ltb b c = false -> ltb a c = false.

Lemma insert_above (x : A) (l : list A) :
  Forall (fun z => ltb z x = false) l -> insert ltb x l = x :: l.
Proof.
  destruct 1 as [|z l Hz _]; simpl; [reflexivity|]. now rewrite Hz.
Qed.

Lemma filter_insert (p : A -> bool) (x : A) (l : list A) :
  StronglySorted (fun a b => ltb b a = false) l ->
  filter p (insert ltb x l) = if p x then insert ltb x (filter p l) else filter p l.
Proof.
  induction 1 as [|y l Hs IH Hy]; simpl.
  - now destruct (p x).
  - destruct (ltb y x) eqn:Eyx; simpl.
    + rewrite IH. destruct (p y), (p x); simpl; try reflexivity. now rewrite Eyx.
    + destruct (p x) eqn:Epx, (p y) eqn:Epy; simpl; try reflexivity.
      * now rewrite Eyx.
      * symmetry. apply insert_above.
        rewrite Forall_forall in *. intros z Hz. apply filter_In in Hz as [Hz _].
        apply (ltb_ntrans z y x); auto.
Qed.

Lemma sorted_StronglySorted (l : list A) :
  StronglySorted (fun a b => ltb b a = false) (sorted ltb l).
Proof.
  apply Sorted_StronglySorted.
  - intros a b c Hab Hbc. now apply (ltb_ntrans c b a).
  - apply sorted_Sorted with (le := fun a b => ltb b a = false); auto.
Qed.

Lemma filter_sorted (p : A -> bool) (l : list A) :
  filter p (sorted ltb l) = sorted ltb (filter p l).
Proof.
  induction l as [|x l IH]; simpl; [reflexivity|].
  fold (sorted ltb l). rewrite filter_insert by apply sorted_StronglySorted.
  rewrite IH. now destruct (p x).
Qed.
End SortedFilter.

Lemma keys_filter {A K : Type} (f : A -> result K) (p : A -> bool) (l : list A)
    (kl : list (K * A)) :
  keys f l = Ok kl -> keys f (filter p l) = Ok (filter (fun q => p (snd q)) kl).
Proof.
  revert kl. induction l as [|x l IH]; simpl; intros kl.
  - now intros [= <-].
  - destruct (f x) as [k|e] eqn:Ek; cbn [bind]; [|discriminate].
    destruct (keys f l) as [kr|e] eqn:Er; cbn [bind]; [|discriminate].
    intros [= <-]. simpl. destruct (p x); simpl.
    + now rewrite Ek, (IH kr eq_refl).
    + exact (IH kr eq_refl).
Qed.

Lemma map_snd_filter {A K : Type} (p : A -> bool) (kl : list (K * A)) :
  map snd (filter (fun q => p (snd q)) kl) = filter p (map snd kl).
Proof.
  induction kl as [|q kl IH]; simpl; [reflexivity|].
  destruct (p (snd q)); simpl; now rewrite IH.
Qed.

Lemma sorted_by_asn_filter (p : BuildAsn.ASNEntry -> bool) (all g : list BuildAsn.ASNEntry) :
  BuildAsn.sorted_by_asn all = Ok g ->
  BuildAsn.sorted_by_asn (filter p all) = Ok (filter p g).
Proof.
  unfold BuildAsn.sorted_by_asn, sorted_by.
  destruct (keys (fun x => int (BuildAsn.asn x)) all) as [kl|e] eqn:Ek; cbn [bind];
    [|discriminate].
  intros [= <-]. rewrite (keys_filter _ p _ _ Ek). cbn [bind]. f_equal.
  rewrite <- map_snd_filter. f_equal. symmetry. apply filter_sorted.
  - intros a b H. apply Z.ltb_lt in H. apply Z.ltb_ge. lia.
  - intros a b c H1 H2. apply Z.ltb_ge in H1, H2. apply Z.ltb_ge. lia.
Qed.

(** X11: the per-registry and per-country files of build-asn.py are the
    global file cut down to one registry or one country: each holds the
    entries of the sorted global list that have its key, in the same
    order, and none of them is empty. *)
Theorem asn_views_are_filters (all g : list BuildAsn.ASNEntry)
    (Hsorted : BuildAsn.sorted_by_asn all = Ok g) :
  (forall rows, In rows (asn_rows (fst (BuildAsn.export_by_registry all))) ->
      rows <> [] /\ exists r, rows = with_key BuildAsn.registry r g)
  /\ (forall rows, In rows (asn_rows (fst (BuildAsn.export_by_country all))) ->
        rows <> [] /\ exists c, named_country_key c = true
                                /\ rows = with_key BuildAsn.country c g).
Proof.
  assert (Hview : forall key k es s,
             In (k, es) (BuildAsn.group_by key all) -> BuildAsn.sorted_by_asn es = Ok s ->
             s <> [] /\ s = with_key key k g).
  { intros key k es s Hin Hs. destruct (group_by_entry key all es k Hin) as [-> Hne].
    unfold with_key in Hs. rewrite (sorted_by_asn_filter _ all g Hsorted) in Hs.
    injection Hs as <-. split; [|reflexivity].
    intros Hnil. apply Hne.
    apply Permutation_nil. rewrite <- Hnil.
    apply perm_filter, sorted_by_asn_perm, Hsorted. }
  split; intros rows H.
  - unfold BuildAsn.export_by_registry in H. cbv zeta in H.
    apply asn_rows_for_each in H as ([r es] & Hin & H).
    apply asn_rows_io_bind in H as [[]|(s & Hs & H)]. cbn [lift snd] in Hs.
    apply three_writes_rows in H as ->.
    destruct (Hview _ _ _ _ Hin Hs) as [Hne ->]. split; [exact Hne|now exists r].
  - unfold BuildAsn.export_by_country in H. cbv zeta in H.
    apply asn_rows_for_each in H as ([c es] & Hin & H).
    unfold named_country_key.
    destruct (negb (String.eqb c "") && negb (String.eqb c "*")) eqn:Ec; [|destruct H].
    apply asn_rows_io_bind in H as [[]|(s & Hs & H)]. cbn [lift snd] in Hs.
    apply three_writes_rows in H as ->.
    destruct (Hview _ _ _ _ Hin Hs) as [Hne ->]. split; [exact Hne|]. exists c. now split.
Qed.

Lemma asn_views_are_filters_example :
  [BuildAsn.mkASNEntry "apnic" "JP" "173" "1" "20020801" "allocated"] <> []
  /\ exists r, [BuildAsn.mkASNEntry "apnic" "JP" "173" "1" "20020801" "allocated"]
               = with_key BuildAsn.registry r sample_asn_sorted.
Proof.
  apply (proj1 (asn_views_are_filters sample_asn_entries sample_asn_sorted eq_refl)).
  vm_compute. auto 12.
Defined.

(** ** The statistics of build-asn.py *)

Section CountBy.
Variable key : BuildAsn.ASNEntry -> string.

Lemma list_sum_update (k : string) (d : dict nat) :
  list_sum (map snd (update 0%nat S k d)) = S (list_sum (map snd d)).
Proof.
  induction d as [|[k' n] d IH]; simpl; [reflexivity|].
  destruct (String.eqb k' k); simpl; [reflexivity|]. rewrite IH. lia.
Qed.

Lemma fold_count_sum (l : list BuildAsn.ASNEntry) (d : dict nat) :
  list_sum (map snd (fold_left (fun d entry => update 0%nat S (key entry) d) l d))
  = (list_sum (map snd d) + length l)%nat.
Proof.
  revert d. induction l as [|e l IH]; intros d; cbn [fold_left length]; [lia|].
  rewrite IH, list_sum_update. lia.
Qed.

Lemma count_by_sum (l : list BuildAsn.ASNEntry) :
  list_sum (map snd (BuildAsn.count_by key l)) = length l.
Proof.
  apply (fold_count_sum l []).
Qed.

Lemma count_by_counted (l : list BuildAsn.ASNEntry) : counted key l (BuildAsn.count_by key l).
Proof.
  unfold BuildAsn.count_by.
  assert (H : forall l pre d, counted key pre d ->
            counted key (pre ++ l)
              (fold_left (fun d entry => update 0%nat S (key entry) d) l d)).
  { clear l. induction l as [|e l IH]; intros pre d Hc; cbn [fold_left].
    - now rewrite app_nil_r.
    - replace (pre ++ e :: l)%list with ((pre ++ [e]) ++ l)%list
        by (rewrite <- app_assoc; reflexivity).
      apply IH. destruct Hc as [Hn Hl]. split; [now apply NoDup_update|].
      intros k. rewrite lookup_update. unfold with_key in *.
      rewrite filter_app, length_app. simpl.
      destruct (String.eqb_spec (key e) k) as [<-|Hk]; simpl.
      + rewrite (Hl (key e)), Nat.add_1_r.
        now destruct (length (filter (fun e0 => String.eqb (key e0) (key e)) pre)).
      + rewrite Nat.add_0_r. apply Hl. }
  apply (H l [] []). split; [constructor|reflexivity].
Qed.

Lemma count_by_In (l : list BuildAsn.ASNEntry) (k : string) (n : nat) :
  In (k, n) (BuildAsn.count_by key l)
  <-> n = length (with_key key k l) /\ (1 <= n)%nat.
Proof.
  destruct (count_by_counted l) as [Hn Hl]. split.
  - intros Hin. pose proof (In_lookup k n _ Hn Hin) as H. rewrite Hl in H.
    destruct (length (with_key key k l)); [discriminate|].
    injection H as <-. split; [reflexivity|lia].
  - intros [-> H1]. apply lookup_In. rewrite Hl.
    destruct (length (with_key key k l)); [lia|reflexivity].
Qed.

Lemma count_by_keys (l : list BuildAsn.ASNEntry) :
  length (BuildAsn.count_by key l) = length (nodup string_dec (map key l)).
Proof.
  rewrite <- (length_map fst). apply Permutation_length, NoDup_Permutation.
  - apply count_by_counted.
  - apply NoDup_nodup.
  - intros k. rewrite nodup_In, !in_map_iff. split.
    + intros ([k' n] & <- & Hin). apply count_by_In in Hin as [-> H1]. simpl.
      destruct (with_key key k' l) as [|e r] eqn:E; [simpl in H1; lia|].
      assert (He : In e (with_key key k' l)) by (rewrite E; now left).
      apply filter_In in He as [He Hk]. apply String.eqb_eq in Hk. now exists e.
    + intros (e & <- & He). exists (key e, length (with_key key (key e) l)).
      split; [reflexivity|]. apply count_by_In. split; [reflexivity|].
      assert (Hin : In e (with_key key (key e) l)).
      { apply filter_In. split; [assumption|apply String.eqb_refl]. }
      destruct (with_key key (key e) l); [destruct Hin|simpl; lia].
Qed.
End CountBy.

Lemma item_ltb_asym (a b : string * nat) :
  BuildAsn.item_ltb a b = true -> BuildAsn.item_ltb b a = false.
Proof.
  unfold BuildAsn.item_ltb. rewrite (String.eqb_sym (fst b) (fst a)).
  destruct (String.eqb (fst a) (fst b)); [|apply str_lt_asym].
  intros H. apply Nat.ltb_lt in H. apply Nat.ltb_ge. lia.
Qed.

Lemma sorted_items_by_key (d : dict nat) :
  NoDup (map fst d) ->
  Sorted (fun a b => str_lt (fst a) (fst b)) (sorted BuildAsn.item_ltb d).
Proof.
  intros Hn.
  assert (Hs : Sorted (fun a b => BuildAsn.item_ltb b a = false) (sorted BuildAsn.item_ltb d)).
  { apply sorted_Sorted with (le := fun a b => BuildAsn.item_ltb b a = false); auto.
    intros a b. apply item_ltb_asym. }
  assert (Hn' : NoDup (map fst (sorted BuildAsn.item_ltb d))).
  { apply (Permutation_NoDup (l := map fst d)); [|assumption].
    apply Permutation_map, Permutation_sym, sorted_perm. }
  revert Hn'. induction Hs as [|a l Hs IH Hd]; intros Hn'; [constructor|].
  simpl in Hn'. inversion Hn'; subst. constructor; [auto|].
  destruct Hd as [|b l' Hba]; constructor.
  unfold BuildAsn.item_ltb in Hba.
  destruct (String.eqb_spec (fst b) (fst a)) as [Heq|Hne].
  - exfalso. match goal with H : ~ In _ _ |- _ => apply H end. simpl. now left.
  - apply str_ltb_total; [assumption|]. congruence.
Qed.

(** X12: the summary of build-asn.py is consistent: under each of
    country, registry and status the counts are the numbers of entries
    with that key, none is zero and together they make the total; the
    count of countries and of registries is the number of distinct ones,
    the empty and the wildcard country counted like any other. *)
Theorem summary_counts (all_asn_data : list BuildAsn.ASNEntry) :
  let s := BuildAsn.summarize all_asn_data in
  BuildAsn.total_asns s = length all_asn_data
  /\ list_sum (map snd (BuildAsn.by_country s)) = BuildAsn.total_asns s
  /\ list_sum (map snd (BuildAsn.by_registry s)) = BuildAsn.total_asns s
  /\ list_sum (map snd (BuildAsn.by_status s)) = BuildAsn.total_asns s
  /\ (forall c n, In (c, n) (BuildAsn.by_country s)
                  <-> n = length (with_key BuildAsn.country c all_asn_data) /\ (1 <= n)%nat)
  /\ (forall r n, In (r, n) (BuildAsn.by_registry s)
                  <-> n = length (with_key BuildAsn.registry r all_asn_data) /\ (1 <= n)%nat)
  /\ (forall t n, In (t, n) (BuildAsn.by_status s)
                  <-> n = length (with_key BuildAsn.status t all_asn_data) /\ (1 <= n)%nat)
  /\ BuildAsn.countries_count s = length (nodup string_dec (map BuildAsn.country all_asn_data))
  /\ BuildAsn.registries_count s
     = length (nodup string_dec (map BuildAsn.registry all_asn_data)).
Proof.
  cbv zeta. unfold BuildAsn.summarize. cbn [BuildAsn.total_asns BuildAsn.by_country
    BuildAsn.by_registry BuildAsn.by_status BuildAsn.countries_count BuildAsn.registries_count].
  unfold BuildAsn.sorted_by_count.
  split; [reflexivity|].
  repeat (split; [rewrite (Permutation_map snd (sorted_perm _ _)); apply count_by_sum|]).
  split; [|split; [|split; [|split; apply count_by_keys]]].
  - intros c n. rewrite <- count_by_In. split; apply Permutation_in;
      [|apply Permutation_sym]; apply sorted_perm.
  - intros r n. rewrite <- count_by_In. split; apply Permutation_in;
      [|apply Permutation_sym]; apply sorted_perm.
  - intros t n. rewrite <- count_by_In. split; apply Permutation_in;
      [|apply Permutation_sym]; apply sorted_perm.
Qed.

(** X13: the listings of the summary are ordered as the code asks: the
    countries by count, largest first, the ten of summary.txt being the
    first ten of them; the registries and the statuses by name, each name
    once. *)
Theorem summary_order (all_asn_data : list BuildAsn.ASNEntry) :
  let s := BuildAsn.summarize all_asn_data in
  Sorted (fun a b => (snd b <= snd a)%nat) (BuildAsn.by_country s)
  /\ BuildAsn.top_countries all_asn_data = firstn 10 (BuildAsn.by_country s)
  /\ (forall a b, In a (BuildAsn.top_countries all_asn_data) ->
                  In b (skipn 10 (BuildAsn.by_country s)) -> (snd b <= snd a)%nat)
  /\ Sorted (fun a b => str_lt (fst a) (fst b)) (BuildAsn.by_registry s)
  /\ Sorted (fun a b => str_lt (fst a) (fst b)) (BuildAsn.by_status s).
Proof.
  cbv zeta. unfold BuildAsn.summarize, BuildAsn.top_countries.
  cbn [BuildAsn.by_country BuildAsn.by_registry BuildAsn.by_status].
  assert (Hs : Sorted (fun a b : string * nat => (snd b <= snd a)%nat)
                 (BuildAsn.sorted_by_count (BuildAsn.count_by BuildAsn.country all_asn_data))).
  { unfold BuildAsn.sorted_by_count.
    apply sorted_Sorted with (le := fun a b : string * nat => (snd b <= snd a)%nat);
      intros a b H.
    - apply Nat.ltb_lt in H. lia.
    - apply Nat.ltb_ge in H. lia. }
  split; [exact Hs|]. split; [reflexivity|]. split.
  - apply Sorted_StronglySorted in Hs; [|intros a b c; simpl; lia].
    rewrite <- (firstn_skipn 10 (BuildAsn.sorted_by_count _)) in Hs.
    revert Hs. generalize (skipn 10 (BuildAsn.sorted_by_count
                                        (BuildAsn.count_by BuildAsn.country all_asn_data))).
    generalize (firstn 10 (BuildAsn.sorted_by_count
                             (BuildAsn.count_by BuildAsn.country all_asn_data))).
    intros top. induction top as [|x top IH]; intros rest Hs a b Ha Hb; [destruct Ha|].
    simpl in Hs. inversion Hs as [|? ? Hs' Hx]; subst. destruct Ha as [<-|Ha].
    + rewrite Forall_forall in Hx. apply Hx, in_or_app. now right.
    + now apply (IH rest Hs').
  - split; apply sorted_items_by_key, count_by_counted.
Qed.

(** ** [process_asn_data] works line by line *)

Lemma split_app_sep (sep : ascii) (a b : string) :
  split sep (a ++ String sep b) = (split sep a ++ split sep b)%list.
Proof.
  induction a as [|c r IH]; simpl.
  - now rewrite Ascii.eqb_refl.
  - destruct (Ascii.eqb c sep); rewrite IH; [reflexivity|].
    destruct (split_cons sep r) as (p & ps & ->). reflexivity.
Qed.

Lemma process_asn_data_In (registry_name data : string) (e : BuildAsn.ASNEntry) :
  In e (BuildAsn.process_asn_data registry_name data)
  <-> exists line, In line (split Py.LF data) /\ BuildAsn.process_line line = Some e.
Proof.
  unfold BuildAsn.process_asn_data. rewrite in_flat_map. split.
  - intros (line & Hl & He). exists line. split; [assumption|].
    destruct (BuildAsn.process_line line) as [e'|]; [|destruct He].
    destruct He as [->|[]]. reflexivity.
  - intros (line & Hl & He). exists line. split; [assumption|]. rewrite He. now left.
Qed.

(** X14: [process_asn_data] works line by line: the entries of two texts
    joined by a line end are the entries of the first followed by those of
    the second, every entry comes from a line of the text, and there are
    no more entries than lines. *)
Theorem process_asn_data_by_line (registry_name a b : string) :
  BuildAsn.process_asn_data registry_name (a ++ nl ++ b)
  = (BuildAsn.process_asn_data registry_name a
     ++ BuildAsn.process_asn_data registry_name b)%list
  /\ (forall e, In e (BuildAsn.process_asn_data registry_name a)
                <-> exists line, In line (split Py.LF a) /\ BuildAsn.process_line line = Some e)
  /\ (length (BuildAsn.process_asn_data registry_name a) <= length (split Py.LF a))%nat.
Proof.
  split; [|split].
  - unfold BuildAsn.process_asn_data, nl. simpl append.
    rewrite split_app_sep. apply flat_map_app.
  - intros e. apply process_asn_data_In.
  - unfold BuildAsn.process_asn_data.
    induction (split Py.LF a) as [|line rest IH]; simpl; [lia|].
    rewrite length_app. destruct (BuildAsn.process_line line); simpl; lia.
Qed.

(** ** build-curated-lists.py *)

Lemma ofac_blocks_state (fs : string -> option string) (path : string) :
  ~ blank fs path -> Curated.ofac_blocks fs path = Curated.state_blocks fs path.
Proof.
  unfold blank, Curated.ofac_blocks, Curated.state_blocks. intros Hb.
  destruct (Curated.read fs path) as [text|]; [|reflexivity]. cbv zeta.
  destruct (String.eqb_spec (strip text) "") as [He|_]; [|reflexivity].
  exfalso. apply Hb. now exists text.
Qed.

Lemma flat_map_same {A B : Type} (f g : A -> list B) (l : list A) :
  (forall x, In x l -> f x = g x) -> flat_map f l = flat_map g l.
Proof.
  induction l as [|x l IH]; intros H; simpl; [reflexivity|].
  rewrite (H x (or_introl eq_refl)), IH; [reflexivity|].
  intros y Hy. apply H. now right.
Qed.

(** X15: the two curated lists differ on blank files only: a file that
    exists and holds nothing but white space gives the first list one
    empty entry and the second list none; when no file of the four
    countries of the first list is blank, the second list starts with the
    whole first list. *)
Theorem curated_lists_agree (fs : string -> option string) :
  (forall path, blank fs path ->
      Curated.state_blocks fs path = [""] /\ Curated.ofac_blocks fs path = [])
  /\ ((forall country_code, In country_code Curated.countries_state ->
          ~ blank fs (Curated.ipv4_file country_code)
          /\ ~ blank fs (Curated.ipv6_file country_code)) ->
      exists rest, Curated.ofac_sanctioned fs = (Curated.state_sponsors fs ++ rest)%list).
Proof.
  split.
  - intros path (text & Hr & Hs). unfold Curated.state_blocks, Curated.ofac_blocks.
    rewrite Hr. cbv zeta. rewrite Hs. split; reflexivity.
  - intros Hnb. unfold Curated.ofac_sanctioned, Curated.state_sponsors.
    change Curated.countries_ofac
      with (Curated.countries_state
            ++ ["RU"; "BY"; "YE"; "IQ"; "MM"; "CF"; "CD"; "ET"; "HK"; "LB"; "LY"; "SD"; "VE"; "ZW"])%list.
    rewrite flat_map_app. eexists. f_equal.
    apply flat_map_same. intros cc Hcc. destruct (Hnb cc Hcc) as [H4 H6].
    now rewrite (ofac_blocks_state fs _ H4), (ofac_blocks_state fs _ H6).
Qed.

Lemma universal_newlines_id (s : string) : has_char Py.CR s = false -> universal_newlines s = s.
Proof.
  induction s as [|c r IH]; simpl; [reflexivity|].
  intros H. apply orb_false_elim in H as [Hc Hr]. rewrite Hc. now rewrite IH.
Qed.

Lemma split_one (sep : ascii) (s : string) : has_char sep s = false -> split sep s = [s].
Proof.
  induction s as [|c r IH]; simpl; [reflexivity|].
  intros H. apply orb_false_elim in H as [Hc Hr]. rewrite Hc, (IH Hr). reflexivity.
Qed.

Lemma has_char_app (c : ascii) (a b : string) :
  has_char c (a ++ b) = has_char c a || has_char c b.
Proof.
  induction a as [|x r IH]; simpl; [reflexivity|]. now rewrite IH, orb_assoc.
Qed.

Lemma split_join (ls : list string) :
  ls <> [] -> Forall (fun s => has_char Py.LF s = false) ls ->
  split Py.LF (join nl ls) = ls.
Proof.
  induction ls as [|x ls IH]; [congruence|]. intros _ H.
  inversion H as [|? ? Hx Hls]; subst.
  destruct ls as [|y ls']; [exact (split_one _ _ Hx)|].
  change (join nl (x :: y :: ls')) with (x ++ String Py.LF (join nl (y :: ls'))).
  rewrite split_app_sep, (split_one _ _ Hx), IH by (congruence || assumption).
  reflexivity.
Qed.

Lemma join_no_char (c : ascii) (ls : list string) :
  Ascii.eqb Py.LF c = false -> Forall (fun s => has_char c s = false) ls ->
  has_char c (join nl ls) = false.
Proof.
  intros Hc. induction 1 as [|x ls Hx Hls IH]; [reflexivity|].
  destruct ls as [|y ls']; [exact Hx|].
  change (join nl (x :: y :: ls')) with (x ++ String Py.LF (join nl (y :: ls'))).
  rewrite has_char_app, Hx. cbn [has_char orb]. now rewrite Hc, IH.
Qed.

(** X16: the curated lists read back what build.py wrote: for a
    per-country TXT file written from a non-empty list of records whose
    address/prefix lines hold no line end, and whose text has no white
    space at either end, both readers of build-curated-lists.py return
    exactly those lines, in order. *)
Theorem txt_round_trip (fs : string -> option string) (path : string)
    (packages : list Build.IPPackage)
    (Hfile : fs path = Some (Build.txt_text packages))
    (Hne : packages <> [])
    (Hlines : Forall one_line (Build.cidr_list packages))
    (Hstrip : strip (Build.txt_text packages) = Build.txt_text packages) :
  Curated.state_blocks fs path = Build.cidr_list packages
  /\ Curated.ofac_blocks fs path = Build.cidr_list packages.
Proof.
  assert (Hcl : Build.cidr_list packages <> []).
  { destruct packages; [congruence|discriminate]. }
  assert (Hlf : Forall (fun s => has_char Py.LF s = false) (Build.cidr_list packages)).
  { eapply Forall_impl; [|exact Hlines]. now intros s [H _]. }
  assert (Hcr : Forall (fun s => has_char Py.CR s = false) (Build.cidr_list packages)).
  { eapply Forall_impl; [|exact Hlines]. now intros s [_ H]. }
  assert (Hread : Curated.read fs path = Some (Build.txt_text packages)).
  { unfold Curated.read. rewrite Hfile. simpl. f_equal.
    apply universal_newlines_id. unfold Build.txt_text.
    apply (join_no_char Py.CR); [reflexivity|exact Hcr]. }
  assert (Hsplit : split Py.LF (Build.txt_text packages) = Build.cidr_list packages)
    by (apply split_join; assumption).
  unfold Curated.state_blocks, Curated.ofac_blocks. rewrite Hread. cbv zeta.
  rewrite Hstrip, Hsplit. split; [reflexivity|].
  destruct (String.eqb_spec (Build.txt_text packages) "") as [He|_]; [|reflexivity].
  exfalso. destruct packages as [|pkg r]; [congruence|].
  unfold Build.txt_text in He.
  destruct r; simpl in He; destruct (Build.ip pkg); discriminate He.
Qed.

Lemma txt_round_trip_example :
  Curated.state_blocks
    (fun path => if String.eqb path "TXT/IPV4/JP.txt"
                 then Some (Build.txt_text [sample_ip_9; sample_ip_10]) else None)
    "TXT/IPV4/JP.txt"
  = ["9.0.0.0/8"; "10.0.0.0/8"].
Proof.
  refine (proj1 (txt_round_trip _ "TXT/IPV4/JP.txt" [sample_ip_9; sample_ip_10]
                                eq_refl _ _ eq_refl)).
  - discriminate.
  - repeat constructor.
Defined.

(** ** The directories of build.py *)

Lemma grouped_key_country (l : list Build.IPPackage) (d : dict Build.versions)
    (c : string) (vs : Build.versions) :
  grouped l d -> In (c, vs) d -> exists pkg, In pkg l /\ Build.country pkg = c.
Proof.
  intros [Hn Hl] Hin. pose proof (In_lookup c vs d Hn Hin) as H. rewrite Hl in H.
  destruct (existsb (fun pkg => String.eqb (Build.country pkg) c) l) eqn:E; [|discriminate].
  apply existsb_exists in E as (pkg & Hpkg & Hc). apply String.eqb_eq in Hc. now exists pkg.
Qed.

Lemma write_group_path (c v : string) (packages : list Build.IPPackage) (a : Build.artifact) :
  In a (fst (Build.write_group c v packages)) ->
  fst a = "CSV/" ++ upper v ++ "/" ++ c ++ ".csv"
  \/ fst a = "JSON/" ++ upper v ++ "/" ++ c ++ ".json"
  \/ fst a = "TXT/" ++ upper v ++ "/" ++ c ++ ".txt".
Proof.
  destruct packages; simpl; [contradiction|].
  intros [<-|[<-|[<-|[]]]]; auto.
Qed.

(** X17: [main] of build.py writes into the directories that
    [create_directories] makes: when no collected country code holds a
    '/', every file written is a plain name inside one of them. *)
Theorem files_in_created_directories
    (IPv4Address IPv6Address : string -> option Z) (fs : string -> option string)
    (a : Build.artifact)
    (Hcodes : forall pkg, In pkg (Build.collect fs) -> has_char "/" (Build.country pkg) = false)
    (Hwritten : In a (fst (Build.main IPv4Address IPv6Address fs))) :
  exists dir name : string,
    In dir Build.create_directories
    /\ fst a = dir ++ "/" ++ name
    /\ has_char "/" name = false.
Proof.
  unfold Build.main in Hwritten. cbv zeta in Hwritten.
  set (sorted_data := Build.sort_ip_data IPv4Address IPv6Address (Build.collect fs)) in *.
  assert (Hp : Permutation sorted_data (Build.collect fs)) by apply sorted_perm.
  apply In_io_bind in Hwritten as [H|(_ & _ & H)].
  { simpl in H. destruct H as [<-|[<-|[<-|[]]]];
      [exists "CSV", "countries.csv"|exists "JSON", "countries.json"
      |exists "TXT", "countries.txt"]; simpl; auto 12. }
  apply In_io_bind in H as [H|(_ & _ & H)].
  { simpl in H. destruct H as [<-|[<-|[<-|[]]]];
      [exists "CSV", "global.csv"|exists "JSON", "global.json"
      |exists "JSON", "global_compressed.json"]; simpl; auto 12. }
  apply In_io_bind in H as [H|(_ & _ & H)].
  { simpl in H. destruct H as [<-|[<-|[<-|[]]]];
      [exists "CSV", "global_ipv4.csv"|exists "JSON", "global_ipv4.json"
      |exists "JSON", "global_ipv4_compressed.json"]; simpl; auto 12. }
  apply In_io_bind in H as [H|(_ & _ & H)].
  { simpl in H. destruct H as [<-|[<-|[<-|[]]]];
      [exists "CSV", "global_ipv6.csv"|exists "JSON", "global_ipv6.json"
      |exists "JSON", "global_ipv6_compressed.json"]; simpl; auto 12. }
  assert (Hk : Forall known_version sorted_data).
  { apply Forall_forall. intros pkg Hpkg. apply (Permutation_in pkg Hp) in Hpkg.
    pose proof (collect_known fs) as Hc. rewrite Forall_forall in Hc. now apply Hc. }
  destruct (group_by_country_grouped sorted_data Hk) as (d & Hd & Hg).
  rewrite (export_country_data_files _ _ Hd) in H.
  apply in_flat_map in H as ([c vs] & Hin & H). cbn [fst snd] in H.
  destruct (grouped_key_country _ _ _ _ Hg Hin) as (pkg & Hpkg & <-).
  pose proof (Hcodes pkg (Permutation_in pkg Hp Hpkg)) as Hc.
  assert (Hname : forall ext, has_char "/" ext = false ->
             has_char "/" (Build.country pkg ++ ext) = false).
  { intros ext He. now rewrite has_char_app, Hc, He. }
  apply In_io_bind in H as [H|(_ & _ & H)]; apply write_group_path in H;
    destruct H as [->|[->| ->]].
  - exists "CSV/IPV4", (Build.country pkg ++ ".csv"). rewrite Hname by reflexivity.
    simpl. auto 12.
  - exists "JSON/IPV4", (Build.country pkg ++ ".json"). rewrite Hname by reflexivity.
    simpl. auto 12.
  - exists "TXT/IPV4", (Build.country pkg ++ ".txt"). rewrite Hname by reflexivity.
    simpl. auto 12.
  - exists "CSV/IPV6", (Build.country pkg ++ ".csv"). rewrite Hname by reflexivity.
    simpl. auto 12.
  - exists "JSON/IPV6", (Build.country pkg ++ ".json"). rewrite Hname by reflexivity.
    simpl. auto 12.
  - exists "TXT/IPV6", (Build.country pkg ++ ".txt"). rewrite Hname by reflexivity.
    simpl. auto 12.
Qed.

Lemma files_in_created_directories_example :
  exists dir name : string,
    In dir Build.create_directories
    /\ "TXT/IPV4/JP.txt" = dir ++ "/" ++ name
    /\ has_char "/" name = false.
Proof.
  apply (files_in_created_directories ipv4_address_int no_ipv6 sample_source
           ("TXT/IPV4/JP.txt", Build.Rows [Build.mkIPPackage "JP" "103.0.0.0" "24" "ipv4"])).
  - intros pkg H. vm_compute in H. destruct H as [<-|[]]. reflexivity.
  - vm_compute. auto 20.
Defined.

(** ** The sort of build.py is stable *)

Lemma tuple3_ltb_irrefl (k : string * string * Z) : tuple3_ltb k k = false.
Proof.
  destruct k as [[c v] n]. simpl. rewrite !String.eqb_refl. apply Z.ltb_irrefl.
Qed.

Lemma key_le_nlt (k1 k2 : string * string * Z) : key_le k1 k2 -> tuple3_ltb k2 k1 = false.
Proof.
  destruct k1 as [[c1 v1] n1], k2 as [[c2 v2] n2]. simpl.
  intros [Hc|[-> [Hv|[-> Hn]]]].
  - destruct (String.eqb_spec c2 c1) as [->|_]; [now apply str_lt_irrefl in Hc|].
    now apply str_lt_asym.
  - rewrite String.eqb_refl.
    destruct (String.eqb_spec v2 v1) as [->|_]; [now apply str_lt_irrefl in Hv|].
    now apply str_lt_asym.
  - rewrite !String.eqb_refl. apply Z.ltb_ge. lia.
Qed.

Lemma tuple3_ltb_ntrans (k1 k2 k3 : string * string * Z) :
  tuple3_ltb k1 k2 = false -> tuple3_ltb k2 k3 = false -> tuple3_ltb k1 k3 = false.
Proof.
  intros H12 H23. apply key_le_nlt.
  apply (key_le_trans k3 k2 k1); now apply tuple3_nlt_le.
Qed.

Section Stable.
Variables IPv4Address IPv6Address : string -> option Z.

Let key := Build.ip_sort_key IPv4Address IPv6Address.
Let ltb (a b : Build.IPPackage) := tuple3_ltb (key a) (key b).

Lemma sort_ip_data_filter (p : Build.IPPackage -> bool) (l : list Build.IPPackage) :
  filter p (Build.sort_ip_data IPv4Address IPv6Address l)
  = Build.sort_ip_data IPv4Address IPv6Address (filter p l).
Proof.
  apply (filter_sorted ltb).
  - intros a b. apply tuple3_ltb_asym.
  - intros a b c. apply tuple3_ltb_ntrans.
Qed.

Lemma same_key_eq (k : string * string * Z) (pkg : Build.IPPackage) :
  same_key IPv4Address IPv6Address k pkg = true -> key pkg = k.
Proof.
  unfold same_key. fold (key pkg). destruct (key pkg) as [[c v] n], k as [[c' v'] n'].
  simpl. intros H. apply andb_prop in H as [H Hn]. apply andb_prop in H as [Hc Hv].
  apply String.eqb_eq in Hc, Hv. apply Z.eqb_eq in Hn. now subst.
Qed.

Lemma sorted_same_key (k : string * string * Z) (l : list Build.IPPackage) :
  Forall (fun pkg => key pkg = k) l -> sorted ltb l = l.
Proof.
  intros H. apply sorted_of_Sorted.
  induction H as [|x l Hx Hl IH]; constructor; [assumption|].
  destruct Hl as [|y l' Hy _]; constructor.
  unfold ltb. rewrite Hx, Hy. apply tuple3_ltb_irrefl.
Qed.
End Stable.

(** X18: [sort_ip_data] is stable: the records that share one sort key
    (country, family and address value) come out in the order in which
    they came in. *)
Theorem sort_ip_data_stable
    (IPv4Address IPv6Address : string -> option Z) (k : string * string * Z)
    (ip_data : list Build.IPPackage) :
  filter (same_key IPv4Address IPv6Address k)
         (Build.sort_ip_data IPv4Address IPv6Address ip_data)
  = filter (same_key IPv4Address IPv6Address k) ip_data.
Proof.
  rewrite sort_ip_data_filter. apply (sorted_same_key _ _ k).
  apply Forall_forall. intros pkg H. apply filter_In in H as [_ H].
  now apply same_key_eq.
Qed.

(** X19: the views of build.py are sorted lists of their own: restricting
    the sorted data to one family, or to one country and family, gives the
    same list as sorting the records of that family, or of that country
    and family. *)
Theorem views_are_sorted_subsets
    (IPv4Address IPv6Address : string -> option Z) (ip_data : list Build.IPPackage)
    (c v : string) :
  Build.version_view (Build.sort_ip_data IPv4Address IPv6Address ip_data) v
  = Build.sort_ip_data IPv4Address IPv6Address (Build.version_view ip_data v)
  /\ country_family c v (Build.sort_ip_data IPv4Address IPv6Address ip_data)
     = Build.sort_ip_data IPv4Address IPv6Address (country_family c v ip_data).
Proof.
  split; apply sort_ip_data_filter.
Qed.

(** ** The counts that [main] of build-asn.py prints *)










(** ** The canonical order *)

Section IpOrderSpec.
Variables IPv4Address IPv6Address : string -> option Z.

Lemma ip_sort_key_known (pkg : Build.IPPackage) :
  known_version pkg ->
  Build.ip_sort_key IPv4Address IPv6Address pkg
  = (Build.country pkg, Build.version pkg, address_value IPv4Address IPv6Address pkg).
Proof.
  unfold Build.ip_sort_key, address_value. intros [H|H]; rewrite H; reflexivity.
Qed.

(** On records of the two families the order of the computed keys is
    the canonical order. *)
Lemma ip_key_le_canonical (a b : Build.IPPackage) :
  known_version a -> known_version b ->
  ip_key_le IPv4Address IPv6Address a b -> ip_le IPv4Address IPv6Address a b.
Proof.
  intros Ha Hb. unfold ip_key_le, ip_le.
  rewrite (ip_sort_key_known a Ha), (ip_sort_key_known b Hb). cbn [key_le].
  intros [Hc|[Hc [Hv|[Hv Hn]]]]; [now left| |right; auto].
  right. split; [exact Hc|]. left. unfold family_lt.
  destruct Ha as [Ha|Ha], Hb as [Hb|Hb]; rewrite Ha, Hb in *;
    solve [auto|discriminate Hv].
Qed.

Lemma Sorted_canonical (l : list Build.IPPackage) :
  Forall known_version l -> Sorted (ip_key_le IPv4Address IPv6Address) l ->
  Sorted (ip_le IPv4Address IPv6Address) l.
Proof.
  intros Hk Hs. rewrite <- (map_id l).
  apply (Sorted_map_where (ip_key_le IPv4Address IPv6Address) (ip_le IPv4Address IPv6Address)
           known_version (fun pkg => pkg)); [|assumption|assumption].
  intros p q. apply ip_key_le_canonical.
Qed.

Lemma sort_ip_data_known (ip_data : list Build.IPPackage) :
  Forall known_version ip_data ->
  Forall known_version (Build.sort_ip_data IPv4Address IPv6Address ip_data).
Proof.
  rewrite !Forall_forall. intros H pkg Hpkg. apply H.
  exact (Permutation_in pkg (sort_ip_data_perm IPv4Address IPv6Address ip_data) Hpkg).
Qed.

Lemma sort_ip_data_canonical (ip_data : list Build.IPPackage) :
  Forall known_version ip_data ->
  Sorted (ip_le IPv4Address IPv6Address) (Build.sort_ip_data IPv4Address IPv6Address ip_data).
Proof.
  intros Hk. apply Sorted_canonical; [now apply sort_ip_data_known|].
  apply sort_ip_data_Sorted.
Qed.

(** The records of every file of [main] are of the two families. *)
Lemma build_main_rows_known (fs : string -> option string) (rows : list Build.IPPackage) :
  In rows (ip_rows (fst (Build.main IPv4Address IPv6Address fs))) ->
  Forall known_version rows.
Proof.
  unfold Build.main. cbv zeta.
  set (sorted_data := Build.sort_ip_data IPv4Address IPv6Address (Build.collect fs)).
  assert (Hk : Forall known_version sorted_data)
    by apply sort_ip_data_known, collect_known.
  assert (Hf : forall p, Forall known_version (filter p sorted_data)).
  { intros p. rewrite Forall_forall in *. intros x Hx. apply filter_In in Hx as [Hx _]. auto. }
  intros Hin. unfold ip_rows in Hin. apply in_flat_map in Hin as (a & Ha & Hrows).
  apply In_io_bind in Ha as [Ha|(_ & _ & Ha)].
  { simpl in Ha. destruct Ha as [<-|[<-|[<-|[]]]]; destruct Hrows. }
  apply In_io_bind in Ha as [Ha|(_ & _ & Ha)].
  { simpl in Ha. destruct Ha as [<-|[<-|[<-|[]]]]; destruct Hrows as [<-|[]]; exact Hk. }
  apply In_io_bind in Ha as [Ha|(_ & _ & Ha)].
  { simpl in Ha. destruct Ha as [<-|[<-|[<-|[]]]]; destruct Hrows as [<-|[]]; apply Hf. }
  apply In_io_bind in Ha as [Ha|(_ & _ & Ha)].
  { simpl in Ha. destruct Ha as [<-|[<-|[<-|[]]]]; destruct Hrows as [<-|[]]; apply Hf. }
  destruct (group_by_country_grouped sorted_data Hk) as (d & Hd & Hg).
  change (In a (fst (Build.export_country_data sorted_data))) in Ha.
  rewrite (export_country_data_files _ _ Hd) in Ha.
  apply in_flat_map in Ha as ([c vs] & Hcv & Ha).
  rewrite (grouped_entry _ _ _ _ Hg Hcv) in Ha. cbn [fst snd] in Ha.
  apply In_io_bind in Ha as [Ha|(_ & _ & Ha)];
    apply write_group_rows in Ha; rewrite Ha in Hrows;
    destruct Hrows as [<-|[]]; apply Hf.
Qed.
End IpOrderSpec.

(** C2: the output of the canonical sort, and every file of records
    written from it, is in the canonical order.  For IP blocks, whose
    records are all of the families ipv4 and ipv6: by country code in
    lexicographic order, then ipv4 before ipv6, then by the integer value
    of the address, an address that does not parse counting as zero.  For
    AS numbers: by the numeric value of the number. *)
Theorem canonical_order :
  (forall (IPv4Address IPv6Address : string -> option Z) (ip_data : list Build.IPPackage),
      Forall known_version ip_data ->
      Sorted (ip_le IPv4Address IPv6Address)
             (Build.sort_ip_data IPv4Address IPv6Address ip_data))
  /\ (forall (IPv4Address IPv6Address : string -> option Z) (fs : string -> option string),
         Forall known_version (Build.collect fs)
         /\ Sorted (ip_le IPv4Address IPv6Address)
                   (Build.sort_ip_data IPv4Address IPv6Address (Build.collect fs))
         /\ forall rows : list Build.IPPackage,
              In rows (ip_rows (fst (Build.main IPv4Address IPv6Address fs))) ->
              Sorted (ip_le IPv4Address IPv6Address) rows)
  /\ (forall entries out : list BuildAsn.ASNEntry,
         BuildAsn.sorted_by_asn entries = Ok out -> Sorted asn_le out)
  /\ (forall (completed : list (string * option string)) (rows : list BuildAsn.ASNEntry),
         In rows (asn_rows (fst (BuildAsn.main completed))) -> Sorted asn_le rows).
Proof.
  split; [exact sort_ip_data_canonical|].
  split; [|split; [exact sorted_by_asn_Sorted|exact asn_main_rows]].
  intros p4 p6 fs. split; [apply collect_known|].
  split; [apply sort_ip_data_canonical, collect_known|].
  intros rows Hrows. apply Sorted_canonical.
  - exact (build_main_rows_known p4 p6 fs rows Hrows).
  - exact (build_main_rows p4 p6 fs rows Hrows).
Qed.

(** Countries in lexicographic order, ipv4 before ipv6 within a country,
    and addresses by value: 9.0.0.0 comes before 10.0.0.0, which the
    comparison of the two texts would put first. *)
Lemma canonical_order_example :
  Build.sort_ip_data ipv4_address_int sample_ipv6_address_int sample_ip_unsorted
  = sample_ip_sorted
  /\ str_lt "10.0.0.0" "9.0.0.0"
  /\ Sorted (ip_le ipv4_address_int sample_ipv6_address_int) sample_ip_sorted
  /\ Sorted asn_le sample_asn_sorted.
Proof.
  split; [reflexivity|]. split; [reflexivity|]. split.
  - refine (proj1 canonical_order ipv4_address_int sample_ipv6_address_int
                  sample_ip_unsorted _).
    unfold sample_ip_unsorted.
    repeat (apply Forall_cons; [solve [left; reflexivity|right; reflexivity]|]).
    apply Forall_nil.
  - exact (proj1 (proj2 (proj2 canonical_order)) sample_asn_entries _ eq_refl).
Defined.
